(** * A todo-list REST service and its tool bridge

    Shallow embedding of [main.py] (the FastAPI store service and the
    embedded [TodoMCPServer] adapter) and of [mcp_server.py] (the
    standalone FastMCP adapter), with the properties of the service
    contract proved over the embedding.

    Conventions.
    - Python [int] is [Z]; Python [str] is [string]; a value that may be
      [None] is an [option].
    - The module-level globals [todos_db] and [next_id] form the record
      [World], threaded explicitly through every request handler.  The
      handlers contain no [await], so each one runs atomically on the
      event loop and is a function from [World] to a result and the
      next [World].
    - [datetime.now()] is an input of the handler that calls it: every
      call site receives its own reading of the wall clock, as a number
      of microseconds.
    - A decoded JSON document is a [JValue]; a Python [dict] with string
      keys is a [gmap string _]. *)

From Stdlib Require Import ZArith Lia Ascii String Floats Uint63 Sorted.
From stdpp Require Import base option list sorting strings gmap pretty.

#[local] Set Warnings "-register-all".
#[local] Open Scope Z_scope.

(** ** Python values *)

(** What [json.loads] / [response.json()] can return. *)
Inductive JValue : Type :=
| JNull
| JBool (b : bool)
| JInt (z : Z)
| JFloat (f : float)
| JStr (s : string)
| JList (items : list JValue)
| JObj (fields : gmap string JValue).

Definition is_none (v : JValue) : bool :=
  match v with JNull => true | _ => false end.

(** Python truthiness, as used by [if x] and [a if x else b]. *)
Definition truthy (v : JValue) : bool :=
  match v with
  | JNull => false
  | JBool b => b
  | JInt z => negb (z =? 0)
  | JFloat f => negb (PrimFloat.eqb f 0%float)
  | JStr s => negb (String.eqb s EmptyString)
  | JList l => match l with [] => false | _ => true end
  | JObj m => negb (bool_decide (m = ∅))
  end.

Definition nl : string := String "010"%char EmptyString.

(** [str.join]. *)
Fixpoint join (sep : string) (parts : list string) : string :=
  match parts with
  | [] => EmptyString
  | [p] => p
  | p :: rest => p +:+ sep +:+ join sep rest
  end.

(** [needle in haystack] on strings. *)
Fixpoint contains (needle haystack : string) : bool :=
  String.prefix needle haystack
  || match haystack with
     | EmptyString => false
     | String _ rest => contains needle rest
     end.

(** [str(x)] for an [int]. *)
Definition str_int (z : Z) : string := pretty z.

(** [str(x)] for a [bool]. *)
Definition str_bool (b : bool) : string := if b then "True" else "False".

(** [str(x)] where [x] is a string or [None]. *)
Definition str_opt (o : option string) : string :=
  match o with Some s => s | None => "None" end.

(** ** Floating point, as far as [get_todo_stats] needs it *)

Module PyFloat.

(** [float(n)] for a non-negative [int] below [2^63] (exact below
    [2^53]); list lengths stay far below. *)
Definition of_int (n : Z) : float := PrimFloat.of_uint63 (Uint63.of_Z n).

(** [a / b] on two [int]s: the correctly rounded quotient, which for
    operands below [2^53] is the binary64 quotient of the two
    conversions. *)
Definition truediv (a b : Z) : float := PrimFloat.div (of_int a) (of_int b).

(** [10 ** n] for a natural [n]. *)
Definition pow10 (n : Z) : Z := 10 ^ n.

(** The integer nearest to [m * 2^e * 10^ndigits] for a negative [e],
    ties to even: the decimal digits that CPython's [float.__round__]
    obtains from its correctly rounded float-to-decimal conversion. *)
Definition scaled_nearest_even (m : positive) (e : Z) (ndigits : Z) : Z :=
  let num := Z.pos m * pow10 ndigits in
  let den := 2 ^ (- e) in
  let q := num / den in
  let r := num mod den in
  match 2 * r ?= den with
  | Lt => q
  | Gt => q + 1
  | Eq => if Z.even q then q else q + 1
  end.

(** [round(x, ndigits)] for a float [x] and [ndigits >= 0].  Zeros,
    infinities and NaN are returned unchanged, and so is a float
    without fractional bits.  Any other [x] is rounded to [ndigits]
    decimals (ties to even, on the exact binary value) and converted
    back to the nearest float; the conversion back is written as a
    binary64 division of the scaled integer by [10 ** ndigits], which
    is the nearest float as long as the scaled integer is below
    [2^53]. *)
Definition round (x : float) (ndigits : Z) : float :=
  match Prim2SF x with
  | S754_finite sign m e =>
      if 0 <=? e then x
      else
        let n := scaled_nearest_even m e ndigits in
        let r := PrimFloat.div (of_int n) (of_int (pow10 ndigits)) in
        if sign then PrimFloat.opp r else r
  | _ => x
  end.

End PyFloat.

(** ** Data model of the store service ([main.py], lines 22-43) *)

(** [class TodoCreate(BaseModel)]: a validated request body.  The
    defaults [description = None] and [completed = False] are filled in
    by the decoder, see [TodoCreate.of_json]. *)
Module TodoCreate.
Record t : Type := mk {
  title : string;
  description : option string;
  completed : bool
}.
End TodoCreate.

(** [class TodoUpdate(BaseModel)]: every field is optional and defaults
    to [None]; the model remembers which fields the request did set.
    The outer [option] is "set in the request or not", the inner one is
    the value, which may be [None] when the body carries an explicit
    [null]. *)
Module TodoUpdate.
Record t : Type := mk {
  title : option (option string);
  description : option (option string);
  completed : option (option bool)
}.
End TodoUpdate.

(** [class Todo(BaseModel)].  The annotations say [title: str] and
    [completed: bool], but they are only enforced when a [Todo] is
    constructed: [setattr] on a model instance stores the value as it
    is, so after an update a stored [title] or [completed] can be
    [None]. *)
Module Todo.
Record t : Type := mk {
  id : Z;
  title : option string;
  description : option string;
  completed : option bool;
  created_at : Z;
  updated_at : Z
}.
End Todo.

(** [fastapi.HTTPException(status_code, detail)]. *)
Record HTTPException : Type := mkHTTPException {
  status_code : Z;
  detail : string
}.

(** A call either returns a value or raises. *)
Inductive Result (E A : Type) : Type :=
| Ok (a : A)
| Raise (e : E).
Arguments Ok {E A} a.
Arguments Raise {E A} e.

(** The two module-level globals. *)
Record World : Type := mkWorld {
  todos_db : list Todo.t;
  next_id : Z
}.

(** ** The store service ([main.py], lines 41-146) *)

Module Store.

Definition not_found : HTTPException := mkHTTPException 404 "Todo not found".

(** [todos_db = []], [next_id = 1]. *)
Definition initial : World := mkWorld [] 1.

(** The five [dummy_todos] dictionaries; each has exactly the keys
    [title], [description] and [completed]. *)
Definition dummy_todos : list TodoCreate.t :=
  [ TodoCreate.mk "Learn FastAPI" (Some "Complete FastAPI tutorial") false;
    TodoCreate.mk "Build MCP Server" (Some "Create MCP server for Gemini CLI") false;
    TodoCreate.mk "Test Integration" (Some "Test FastAPI with MCP server") false;
    TodoCreate.mk "Deploy Application" (Some "Deploy to production") true;
    TodoCreate.mk "Write Documentation" (Some "Create API documentation") false ].

(** [Todo(id=next_id, title=..., description=..., completed=...,
    created_at=datetime.now(), updated_at=datetime.now())]: the two
    timestamps come from two separate calls of [datetime.now()],
    evaluated in this order. *)
Definition new_todo (w : World) (data : TodoCreate.t) (now1 now2 : Z) : Todo.t :=
  Todo.mk (next_id w)
          (Some (TodoCreate.title data))
          (TodoCreate.description data)
          (Some (TodoCreate.completed data))
          now1 now2.

(** [todos_db.append(todo); next_id += 1]. *)
Definition append_todo (w : World) (todo : Todo.t) : World :=
  mkWorld (todos_db w ++ [todo]) (next_id w + 1).

(** The seeding loop at import time.  [clock k] is what the [k]-th call
    of [datetime.now()] during start-up returns. *)
Fixpoint seed_loop (clock : nat → Z) (k : nat) (data : list TodoCreate.t) (w : World) : World :=
  match data with
  | [] => w
  | todo_data :: rest =>
      seed_loop clock (S (S k)) rest
                (append_todo w (new_todo w todo_data (clock k) (clock (S k))))
  end.

Definition startup (clock : nat → Z) : World := seed_loop clock 0 dummy_todos initial.

(** [GET /todos]. *)
Definition get_todos (w : World) : list Todo.t := todos_db w.

(** The response dictionary of [GET /todos/stats].  The last entry is
    the [int] 0 on an empty collection and a [float] otherwise. *)
Record Stats : Type := mkStats {
  total_todos : Z;
  completed_todos : Z;
  pending_todos : Z;
  completion_percentage : JValue
}.

(** [if todo.completed]: [None] is falsy. *)
Definition is_completed (todo : Todo.t) : bool :=
  match Todo.completed todo with Some b => b | None => false end.

(** The builtin [sum], which starts from 0 and adds from the left. *)
Definition py_sum (xs : list Z) : Z := fold_left Z.add xs 0.

Definition get_todo_stats (w : World) : Stats :=
  let total := Z.of_nat (length (todos_db w)) in
  let completed := py_sum (map (λ _, 1) (List.filter is_completed (todos_db w))) in
  let pending := total - completed in
  mkStats total completed pending
          (if 0 <? total
           then JFloat (PyFloat.round (PrimFloat.mul (PyFloat.truediv completed total) 100%float) 2)
           else JInt 0).

(** [for i, todo in enumerate(todos_db): if todo.id == todo_id: ...]:
    the index and the item of the first match, counting from [i]. *)
Fixpoint scan (todo_id : Z) (i : nat) (db : list Todo.t) : option (nat * Todo.t) :=
  match db with
  | [] => None
  | todo :: rest =>
      if Todo.id todo =? todo_id then Some (i, todo) else scan todo_id (S i) rest
  end.

(** [GET /todos/{todo_id}]. *)
Definition get_todo (todo_id : Z) (w : World) : Result HTTPException Todo.t :=
  match scan todo_id 0 (todos_db w) with
  | Some (_, todo) => Ok todo
  | None => Raise not_found
  end.

(** [POST /todos]. *)
Definition create_todo (todo : TodoCreate.t) (now1 now2 : Z) (w : World) : Todo.t * World :=
  let new := new_todo w todo now1 now2 in
  (new, append_todo w new).

(** One entry of [todo_update.dict(exclude_unset=True)]. *)
Inductive Assignment : Type :=
| SetTitle (value : option string)
| SetDescription (value : option string)
| SetCompleted (value : option bool).

(** [todo_update.dict(exclude_unset=True)]: the fields the request set,
    in declaration order. *)
Definition dict_exclude_unset (u : TodoUpdate.t) : list Assignment :=
  match TodoUpdate.title u with Some v => [SetTitle v] | None => [] end
  ++ match TodoUpdate.description u with Some v => [SetDescription v] | None => [] end
  ++ match TodoUpdate.completed u with Some v => [SetCompleted v] | None => [] end.

(** [setattr(todo, field, value)]; no validation takes place. *)
Definition setattr (todo : Todo.t) (a : Assignment) : Todo.t :=
  match a with
  | SetTitle v =>
      Todo.mk (Todo.id todo) v (Todo.description todo) (Todo.completed todo)
              (Todo.created_at todo) (Todo.updated_at todo)
  | SetDescription v =>
      Todo.mk (Todo.id todo) (Todo.title todo) v (Todo.completed todo)
              (Todo.created_at todo) (Todo.updated_at todo)
  | SetCompleted v =>
      Todo.mk (Todo.id todo) (Todo.title todo) (Todo.description todo) v
              (Todo.created_at todo) (Todo.updated_at todo)
  end.

(** [todo.updated_at = datetime.now()]. *)
Definition touch (todo : Todo.t) (now : Z) : Todo.t :=
  Todo.mk (Todo.id todo) (Todo.title todo) (Todo.description todo) (Todo.completed todo)
          (Todo.created_at todo) now.

(** [PUT /todos/{todo_id}].  The item is mutated in place; writing it
    back with [todos_db[i] = todo] stores the same object again.  The
    index comes from [enumerate], so it is always in range. *)
Definition update_todo (todo_id : Z) (todo_update : TodoUpdate.t) (now : Z) (w : World)
  : Result HTTPException Todo.t * World :=
  match scan todo_id 0 (todos_db w) with
  | Some (i, todo) =>
      let update_data := dict_exclude_unset todo_update in
      let todo := fold_left setattr update_data todo in
      let todo := touch todo now in
      (Ok todo, mkWorld (<[i := todo]> (todos_db w)) (next_id w))
  | None => (Raise not_found, w)
  end.

(** [f"Todo '{deleted_todo.title}' deleted successfully"]. *)
Definition deleted_message (deleted_todo : Todo.t) : string :=
  "Todo '" +:+ str_opt (Todo.title deleted_todo) +:+ "' deleted successfully".

(** [DELETE /todos/{todo_id}]; the result is the value under the single
    key [message] of the returned dictionary.  [pop(i)] with an index
    outside the list would raise [IndexError], which the framework
    turns into a 500; the index comes from [enumerate], so this branch
    is never taken. *)
Definition delete_todo (todo_id : Z) (w : World) : Result HTTPException string * World :=
  match scan todo_id 0 (todos_db w) with
  | Some (i, _) =>
      match todos_db w !! i with
      | Some deleted_todo =>
          (Ok (deleted_message deleted_todo), mkWorld (delete i (todos_db w)) (next_id w))
      | None => (Raise (mkHTTPException 500 "Internal Server Error"), w)
      end
  | None => (Raise not_found, w)
  end.

(** *** Requests and runs *)

(** A request as the application receives it after validation, together
    with the clock readings its handler will take. *)
Inductive Request : Type :=
| GetTodos
| GetStats
| GetTodo (todo_id : Z)
| PostTodo (body : TodoCreate.t) (now1 now2 : Z)
| PutTodo (todo_id : Z) (body : TodoUpdate.t) (now : Z)
| DeleteTodo (todo_id : Z).

Inductive Response : Type :=
| Todos (items : list Todo.t)
| StatsOf (stats : Stats)
| Item (todo : Todo.t)
| Message (text : string)
| Failed (e : HTTPException).

Definition lift {A} (f : A → Response) (r : Result HTTPException A) : Response :=
  match r with Ok a => f a | Raise e => Failed e end.

Definition handle (req : Request) (w : World) : Response * World :=
  match req with
  | GetTodos => (Todos (get_todos w), w)
  | GetStats => (StatsOf (get_todo_stats w), w)
  | GetTodo todo_id => (lift Item (get_todo todo_id w), w)
  | PostTodo body now1 now2 =>
      let '(todo, w') := create_todo body now1 now2 w in (Item todo, w')
  | PutTodo todo_id body now =>
      let '(r, w') := update_todo todo_id body now w in (lift Item r, w')
  | DeleteTodo todo_id =>
      let '(r, w') := delete_todo todo_id w in (lift Message r, w')
  end.

(** The requests are served one after the other. *)
Fixpoint run (reqs : list Request) (w : World) : list Response * World :=
  match reqs with
  | [] => ([], w)
  | req :: rest =>
      let '(resp, w1) := handle req w in
      let '(resps, w2) := run rest w1 in
      (resp :: resps, w2)
  end.

(** The ids handed out by the [POST /todos] requests of a run, in order. *)
Fixpoint created_ids (reqs : list Request) (resps : list Response) : list Z :=
  match reqs, resps with
  | PostTodo _ _ _ :: reqs', Item todo :: resps' => Todo.id todo :: created_ids reqs' resps'
  | _ :: reqs', _ :: resps' => created_ids reqs' resps'
  | _, _ => []
  end.

Definition is_post (req : Request) : bool :=
  match req with PostTodo _ _ _ => true | _ => false end.

(** How many [POST /todos] requests a run contains. *)
Definition posts (reqs : list Request) : Z :=
  Z.of_nat (length (filter (λ req, is_post req = true) reqs)).

(** The ids of the live collection, in list order. *)
Definition ids (w : World) : list Z := Todo.id <$> todos_db w.

(** Every live id is below the counter, and no two items share one. *)
Definition id_invariant (w : World) : Prop :=
  NoDup (ids w) ∧ Forall (λ i, i < next_id w) (ids w).

(** The clock readings handed to the handler of a request, in the order
    they are taken (an update of an unknown id returns before it looks
    at the clock). *)
Definition readings (req : Request) : list Z :=
  match req with
  | PostTodo _ now1 now2 => [now1; now2]
  | PutTodo _ _ now => [now]
  | _ => []
  end.

(** All readings taken from process start to the end of a run: the ten
    of the seeding loop, then those of the requests. *)
Definition clock_readings (clock : nat → Z) (reqs : list Request) : list Z :=
  (clock <$> seq 0 10) ++ concat (readings <$> reqs).

(** Every [updated_at] in the collection is one of the clock readings
    [past]. *)
Definition stamped_within (past : list Z) (w : World) : Prop :=
  Forall (λ t, Todo.updated_at t ∈ past) (todos_db w).

End Store.


(** ** The JSON boundary of the store service

    FastAPI decodes a request body into the declared model and encodes
    the handler's result through the declared [response_model].  A
    string field takes a JSON string only; a boolean field also takes
    the numbers and words that pydantic reads as booleans.  A body with
    any other value in a declared field is rejected (the framework
    answers 422); keys that the model does not declare are ignored. *)

Module Wire.

(** A field annotated [Optional[str]]: absent, [null], or a string. *)
Definition optional_str (body : gmap string JValue) (key : string)
  : option (option (option string)) :=
  match body !! key with
  | None => Some None
  | Some JNull => Some (Some None)
  | Some (JStr s) => Some (Some (Some s))
  | Some _ => None
  end.

(** [str.lower] on the letters A to Z. *)
Definition lower_ascii (c : ascii) : ascii :=
  let n := nat_of_ascii c in
  if ((65 <=? n) && (n <=? 90))%nat then ascii_of_nat (n + 32) else c.

Fixpoint lower (s : string) : string :=
  match s with
  | EmptyString => EmptyString
  | String c rest => String (lower_ascii c) (lower rest)
  end.

Definition false_words : list string := ["0"; "off"; "f"; "false"; "n"; "no"].
Definition true_words : list string := ["1"; "on"; "t"; "true"; "y"; "yes"].

(** What a field annotated [bool] accepts: a boolean, the integers 0
    and 1, the floats 0.0 and 1.0, and a string that in lower case is
    one of the words above. *)
Definition lax_bool (v : JValue) : option bool :=
  match v with
  | JBool b => Some b
  | JInt z => if z =? 0 then Some false else if z =? 1 then Some true else None
  | JFloat f =>
      if PrimFloat.eqb f 0%float then Some false
      else if PrimFloat.eqb f 1%float then Some true else None
  | JStr s =>
      if bool_decide (lower s ∈ false_words) then Some false
      else if bool_decide (lower s ∈ true_words) then Some true else None
  | _ => None
  end.

(** A field annotated [Optional[bool]]. *)
Definition optional_bool (body : gmap string JValue) (key : string)
  : option (option (option bool)) :=
  match body !! key with
  | None => Some None
  | Some JNull => Some (Some None)
  | Some v => (λ b, Some (Some b)) <$> lax_bool v
  end.

(** The body of [PUT /todos/{id}] as a [TodoUpdate]: a key that is
    present counts as set, also when its value is [null]. *)
Definition todo_update_of_json (body : gmap string JValue) : option TodoUpdate.t :=
  title ← optional_str body "title";
  description ← optional_str body "description";
  completed ← optional_bool body "completed";
  Some (TodoUpdate.mk title description completed).

(** The body of [POST /todos] as a [TodoCreate]: [title] is required,
    [description] defaults to [None] and [completed] to [False]. *)
Definition todo_create_of_json (body : gmap string JValue) : option TodoCreate.t :=
  title ← match body !! "title" with Some (JStr s) => Some s | _ => None end;
  description ← default None <$> optional_str body "description";
  completed ← match body !! "completed" with
              | None => Some false
              | Some v => lax_bool v
              end;
  Some (TodoCreate.mk title description completed).

Section Encode.

(** [datetime.isoformat], as the JSON encoder applies it. *)
Variable isoformat : Z → string.

(** A [Todo] through [response_model=Todo]: all six keys are written.
    The instance that the handler returns is not validated again, so a
    field that holds [None], whether the optional [description] or a
    [title] or [completed] that an update has set to [None], is written
    as [null]. *)
Definition todo_doc (todo : Todo.t) : JValue :=
  JObj (<["id" := JInt (Todo.id todo)]>
       (<["title" := from_option JStr JNull (Todo.title todo)]>
       (<["description" := from_option JStr JNull (Todo.description todo)]>
       (<["completed" := from_option JBool JNull (Todo.completed todo)]>
       (<["created_at" := JStr (isoformat (Todo.created_at todo))]>
       (<["updated_at" := JStr (isoformat (Todo.updated_at todo))]> ∅)))))).

(** The body of a response that carries one item. *)
Definition todo_json (todo : Todo.t) : option JValue := Some (todo_doc todo).

(** [GET /todos] through [response_model=List[Todo]]. *)
Definition todos_json (w : World) : option JValue :=
  JList <$> mapM todo_json (Store.get_todos w).

End Encode.

End Wire.

(** ** What both adapters build on: exceptions and the HTTP client *)

(** An [httpx.Response]: [json] is what calling [response.json()]
    does, return the decoded body or raise. *)
Module Response.
Record t : Type := mk {
  status_code : Z;
  text : string;
  json : Result string JValue
}.
End Response.

(** The exceptions (all subclasses of [Exception]) that can reach the
    adapters.  The message of an exception raised inside a library is
    whatever the library put there. *)
Inductive Exception : Type :=
| KeyError (key : string)
| TypeError (msg : string)
| AttributeError (msg : string)
| ValueError (msg : string)
| ValidationError (msg : string)
| JSONDecodeError (msg : string)
| ConnectError (msg : string)
| HTTPStatusError (msg : string) (response : Response.t)
| TransportError (msg : string)
| PlainException (msg : string).

(** [str(e)]; the keys looked up by the adapters are plain words, whose
    [repr] is the word in single quotes. *)
Definition str_exception (e : Exception) : string :=
  match e with
  | KeyError key => "'" +:+ key +:+ "'"
  | TypeError msg | AttributeError msg | ValueError msg | ValidationError msg
  | JSONDecodeError msg | ConnectError msg | HTTPStatusError msg _
  | TransportError msg | PlainException msg => msg
  end.

#[global] Instance result_ret {E} : MRet (Result E) := λ A a, Ok a.
#[global] Instance result_bind {E} : MBind (Result E) :=
  λ A B f m, match m with Ok a => f a | Raise e => Raise e end.

(** What awaiting a request on the client does: a response arrives or
    the client raises. *)
Inductive Reply : Type :=
| Answer (response : Response.t)
| Fails (e : Exception).

(** The four methods of [httpx.AsyncClient] the adapters call. *)
Module Client.
Record t : Type := mk {
  get : string → Reply;
  post : string → option (gmap string JValue) → Reply;
  put : string → option (gmap string JValue) → Reply;
  delete : string → Reply
}.
End Client.

Definition await (r : Reply) : Result Exception Response.t :=
  match r with Answer response => Ok response | Fails e => Raise e end.

Definition is_success (response : Response.t) : bool :=
  (200 <=? Response.status_code response) && (Response.status_code response <=? 299).

Definition response_json (response : Response.t) : Result Exception JValue :=
  match Response.json response with
  | Ok v => Ok v
  | Raise msg => Raise (JSONDecodeError msg)
  end.

Definition type_name (v : JValue) : string :=
  match v with
  | JNull => "NoneType"
  | JBool _ => "bool"
  | JInt _ => "int"
  | JFloat _ => "float"
  | JStr _ => "str"
  | JList _ => "list"
  | JObj _ => "dict"
  end.

(** [d[key]] on a dictionary. *)
Definition dict_getitem (d : gmap string JValue) (key : string) : Result Exception JValue :=
  match d !! key with
  | Some v => Ok v
  | None => Raise (KeyError key)
  end.

(** [v[key]] with a string key, on any decoded JSON value. *)
Definition getitem (v : JValue) (key : string) : Result Exception JValue :=
  match v with
  | JObj d => dict_getitem d key
  | JStr _ => Raise (TypeError "string indices must be integers, not 'str'")
  | JList _ => Raise (TypeError "list indices must be integers or slices, not str")
  | _ => Raise (TypeError ("'" +:+ type_name v +:+ "' object is not subscriptable"))
  end.

(** [v.get(key, default)]. *)
Definition get_or (v : JValue) (key : string) (default_value : JValue)
  : Result Exception JValue :=
  match v with
  | JObj d => Ok (default default_value (d !! key))
  | _ => Raise (AttributeError ("'" +:+ type_name v +:+ "' object has no attribute 'get'"))
  end.

(** The items a [for] loop or a comprehension draws from [v]: the
    elements of a list, the keys of a dictionary (here in the order of
    the map, which no caller below can tell from insertion order: each
    key is a string and is treated alike), the characters of a string. *)
Definition iterate (v : JValue) : Result Exception (list JValue) :=
  match v with
  | JList items => Ok items
  | JObj d => Ok (JStr <$> (map_to_list d).*1)
  | JStr s => Ok ((λ c, JStr (String c EmptyString)) <$> list_ascii_of_string s)
  | _ => Raise (TypeError ("'" +:+ type_name v +:+ "' object is not iterable"))
  end.

Section Formatting.

(** [repr] of a float, a list or a dictionary. *)
Variable repr : JValue → string.

(** [str(v)], which is what an f-string field without a format
    specification inserts. *)
Definition str (v : JValue) : string :=
  match v with
  | JNull => "None"
  | JBool b => str_bool b
  | JInt z => str_int z
  | JStr s => s
  | JFloat _ | JList _ | JObj _ => repr v
  end.

End Formatting.

Section RaiseForStatus.

(** The message [httpx] gives its [HTTPStatusError], built from the
    status code and the request URL. *)
Variable status_error_message : Z → string → string.

(** [response.raise_for_status()] for the request sent to [url]. *)
Definition raise_for_status (url : string) (response : Response.t)
  : Result Exception Response.t :=
  if is_success response then Ok response
  else Raise (HTTPStatusError
                (status_error_message (Response.status_code response) url) response).

End RaiseForStatus.

(** ** The adapter embedded in [main.py] ([class TodoMCPServer]) *)

Module TodoMCPServer.

(** [TextContent(type=..., text=...)]. *)
Record TextContent : Type := mkTextContent {
  type : string;
  text : string
}.

(** [CallToolResult(content=[...])]. *)
Record CallToolResult : Type := mkCallToolResult {
  content : list TextContent
}.

(** [CallToolResult(content=[TextContent(type="text", text=s)])]. *)
Definition text_result (s : string) : CallToolResult :=
  mkCallToolResult [mkTextContent "text" s].

Definition done_glyph : string := "✅".
Definition pending_glyph : string := "⏳".

(** The names that [handle_list_tools] declares. *)
Definition tool_names : list string :=
  ["get_todos"; "get_todo_stats"; "create_todo"; "update_todo"; "delete_todo";
   "get_todo_by_id"].

(** A call that, when it returns, returns one text block. *)
Definition text_or_raises (r : Result Exception CallToolResult) : Prop :=
  match r with
  | Ok result => ∃ s, result = text_result s
  | Raise _ => True
  end.

(** The dictionary comprehension of [_update_todo]:
    [{k: v for k, v in arguments.items() if k != "id" and v is not None}]. *)
Definition update_data (arguments : gmap string JValue) : gmap string JValue :=
  filter (λ kv, kv.1 ≠ "id" ∧ is_none kv.2 = false) arguments.

Section Server.

Variable client : Client.t.
Variable status_error_message : Z → string → string.
Variable repr : JValue → string.
(** The message of the [ValidationError] that [TextContent] raises for
    a [text] that is not a string. *)
Variable validation_message : JValue → string.

Definition _make_request (method endpoint : string) (data : option (gmap string JValue))
  : Result Exception JValue :=
  let url := "http://localhost:8001" +:+ endpoint in
  response ←
    (if String.eqb method "GET" then await (Client.get client url)
     else if String.eqb method "POST" then await (Client.post client url data)
     else if String.eqb method "PUT" then await (Client.put client url data)
     else if String.eqb method "DELETE" then await (Client.delete client url)
     else Raise (ValueError ("Unsupported HTTP method: " +:+ method)));
  response ← raise_for_status status_error_message url response;
  response_json response.

(** One element of the list comprehension in [_get_todos]; the fields
    of the f-string are evaluated from left to right. *)
Definition todo_line (todo : JValue) : Result Exception string :=
  id ← getitem todo "id";
  title ← getitem todo "title";
  completed ← getitem todo "completed";
  description ← get_or todo "description" (JStr "No description");
  Ok ("ID: " +:+ str repr id +:+ " | " +:+ str repr title +:+ " | "
      +:+ (if truthy completed then done_glyph else pending_glyph) +:+ " | "
      +:+ str repr description).

Definition _get_todos : Result Exception CallToolResult :=
  todos ← _make_request "GET" "/todos" None;
  items ← iterate todos;
  lines ← mapM todo_line items;
  let todos_text := join nl lines in
  Ok (text_result ("All Todos:" +:+ nl +:+ todos_text)).

Definition _get_todo_stats : Result Exception CallToolResult :=
  stats ← _make_request "GET" "/todos/stats" None;
  total ← getitem stats "total_todos";
  completed ← getitem stats "completed_todos";
  pending ← getitem stats "pending_todos";
  percentage ← getitem stats "completion_percentage";
  Ok (text_result ("Todo Statistics:" +:+ nl
                   +:+ "Total Todos: " +:+ str repr total +:+ nl
                   +:+ "Completed: " +:+ str repr completed +:+ nl
                   +:+ "Pending: " +:+ str repr pending +:+ nl
                   +:+ "Completion Rate: " +:+ str repr percentage +:+ "%")).

Definition _create_todo (arguments : gmap string JValue) : Result Exception CallToolResult :=
  title ← dict_getitem arguments "title";
  let todo_data : gmap string JValue :=
    <["title" := title]>
    (<["description" := default JNull (arguments !! "description")]>
    (<["completed" := default (JBool false) (arguments !! "completed")]> ∅)) in
  result ← _make_request "POST" "/todos" (Some todo_data);
  title ← getitem result "title";
  id ← getitem result "id";
  Ok (text_result ("Created todo: " +:+ str repr title +:+ " (ID: " +:+ str repr id +:+ ")")).

Definition _update_todo (arguments : gmap string JValue) : Result Exception CallToolResult :=
  todo_id ← dict_getitem arguments "id";
  result ← _make_request "PUT" ("/todos/" +:+ str repr todo_id) (Some (update_data arguments));
  title ← getitem result "title";
  id ← getitem result "id";
  Ok (text_result ("Updated todo: " +:+ str repr title +:+ " (ID: " +:+ str repr id +:+ ")")).

Definition _delete_todo (arguments : gmap string JValue) : Result Exception CallToolResult :=
  todo_id ← dict_getitem arguments "id";
  result ← _make_request "DELETE" ("/todos/" +:+ str repr todo_id) None;
  message ← getitem result "message";
  match message with
  | JStr s => Ok (text_result s)
  | _ => Raise (ValidationError (validation_message message))
  end.

Definition _get_todo_by_id (arguments : gmap string JValue) : Result Exception CallToolResult :=
  todo_id ← dict_getitem arguments "id";
  todo ← _make_request "GET" ("/todos/" +:+ str repr todo_id) None;
  id ← getitem todo "id";
  title ← getitem todo "title";
  description ← get_or todo "description" (JStr "No description");
  completed ← getitem todo "completed";
  created_at ← getitem todo "created_at";
  updated_at ← getitem todo "updated_at";
  Ok (text_result ("Todo Details:" +:+ nl
                   +:+ "ID: " +:+ str repr id +:+ nl
                   +:+ "Title: " +:+ str repr title +:+ nl
                   +:+ "Description: " +:+ str repr description +:+ nl
                   +:+ "Status: "
                   +:+ (if truthy completed
                        then done_glyph +:+ " Completed"
                        else pending_glyph +:+ " Pending") +:+ nl
                   +:+ "Created: " +:+ str repr created_at +:+ nl
                   +:+ "Updated: " +:+ str repr updated_at)).

(** The [try] block of [handle_call_tool]. *)
Definition dispatch (name : string) (arguments : gmap string JValue)
  : Result Exception CallToolResult :=
  if String.eqb name "get_todos" then _get_todos
  else if String.eqb name "get_todo_stats" then _get_todo_stats
  else if String.eqb name "create_todo" then _create_todo arguments
  else if String.eqb name "update_todo" then _update_todo arguments
  else if String.eqb name "delete_todo" then _delete_todo arguments
  else if String.eqb name "get_todo_by_id" then _get_todo_by_id arguments
  else Ok (text_result ("Unknown tool: " +:+ name)).

(** [handle_call_tool]: the [try] block, and [except Exception as e]
    around it. *)
Definition handle_call_tool (name : string) (arguments : gmap string JValue)
  : CallToolResult :=
  match dispatch name arguments with
  | Ok result => result
  | Raise e => text_result ("Error: " +:+ str_exception e)
  end.

End Server.

End TodoMCPServer.

(** ** The standalone adapter ([mcp_server.py])

    FastMCP binds the arguments of a call to the typed parameters of the
    tool function and wraps what the function returns; the functions
    themselves are modelled here. *)

Module McpServer.

Definition FASTAPI_URL : string := "http://localhost:8001".

(** The glyphs as this file spells them. *)
Definition done_glyph : string := "âœ…".
Definition pending_glyph : string := "â³".

(** [update_data = {}] followed by the three guarded assignments of
    [update_todo]. *)
Definition update_data (title description : option string) (completed : option bool)
  : gmap string JValue :=
  let update_data : gmap string JValue := ∅ in
  let update_data :=
    match title with Some s => <["title" := JStr s]> update_data | None => update_data end in
  let update_data :=
    match description with
    | Some s => <["description" := JStr s]> update_data
    | None => update_data
    end in
  let update_data :=
    match completed with
    | Some b => <["completed" := JBool b]> update_data
    | None => update_data
    end in
  update_data.

Section Tools.

Variable client : Client.t.
Variable status_error_message : Z → string → string.
Variable repr : JValue → string.

(** The [try] block of [make_request]. *)
Definition request (method endpoint : string) (data : option (gmap string JValue))
  : Result Exception JValue :=
  let url := FASTAPI_URL +:+ endpoint in
  response ←
    (if String.eqb method "GET" then await (Client.get client url)
     else if String.eqb method "POST" then await (Client.post client url data)
     else if String.eqb method "PUT" then await (Client.put client url data)
     else if String.eqb method "DELETE" then await (Client.delete client url)
     else Raise (ValueError ("Unsupported HTTP method: " +:+ method)));
  response ← raise_for_status status_error_message url response;
  response_json response.

(** [make_request]: the two [except] clauses replace a connection
    failure and a status error by a plain [Exception]; anything else
    passes through. *)
Definition make_request (method endpoint : string) (data : option (gmap string JValue))
  : Result Exception JValue :=
  match request method endpoint data with
  | Raise (ConnectError _) =>
      Raise (PlainException
               "Cannot connect to FastAPI server. Make sure it's running on http://localhost:8001")
  | Raise (HTTPStatusError _ response) =>
      Raise (PlainException
               ("HTTP error: " +:+ str_int (Response.status_code response)
                +:+ " - " +:+ Response.text response))
  | outcome => outcome
  end.

Definition todo_line (todo : JValue) : Result Exception string :=
  id ← getitem todo "id";
  title ← getitem todo "title";
  completed ← getitem todo "completed";
  description ← get_or todo "description" (JStr "No description");
  Ok ("ID: " +:+ str repr id +:+ " | " +:+ str repr title +:+ " | "
      +:+ (if truthy completed then done_glyph else pending_glyph) +:+ " | "
      +:+ str repr description).

Definition get_todos : Result Exception string :=
  todos ← make_request "GET" "/todos" None;
  items ← iterate todos;
  lines ← mapM todo_line items;
  let todos_text := join nl lines in
  Ok ("All Todos:" +:+ nl +:+ todos_text).

Definition get_todo_stats : Result Exception string :=
  stats ← make_request "GET" "/todos/stats" None;
  total ← getitem stats "total_todos";
  completed ← getitem stats "completed_todos";
  pending ← getitem stats "pending_todos";
  percentage ← getitem stats "completion_percentage";
  Ok ("Todo Statistics:" +:+ nl
      +:+ "Total Todos: " +:+ str repr total +:+ nl
      +:+ "Completed: " +:+ str repr completed +:+ nl
      +:+ "Pending: " +:+ str repr pending +:+ nl
      +:+ "Completion Rate: " +:+ str repr percentage +:+ "%").

Definition create_todo (title : string) (description : option string) (completed : bool)
  : Result Exception string :=
  let todo_data : gmap string JValue :=
    <["title" := JStr title]>
    (<["description" := from_option JStr JNull description]>
    (<["completed" := JBool completed]> ∅)) in
  result ← make_request "POST" "/todos" (Some todo_data);
  title ← getitem result "title";
  id ← getitem result "id";
  Ok ("Created todo: " +:+ str repr title +:+ " (ID: " +:+ str repr id +:+ ")").

Definition update_todo (todo_id : Z) (title description : option string)
  (completed : option bool) : Result Exception string :=
  result ← make_request "PUT" ("/todos/" +:+ str_int todo_id)
             (Some (update_data title description completed));
  title ← getitem result "title";
  id ← getitem result "id";
  Ok ("Updated todo: " +:+ str repr title +:+ " (ID: " +:+ str repr id +:+ ")").

Definition delete_todo (todo_id : Z) : Result Exception JValue :=
  result ← make_request "DELETE" ("/todos/" +:+ str_int todo_id) None;
  getitem result "message".

Definition get_todo_by_id (todo_id : Z) : Result Exception string :=
  todo ← make_request "GET" ("/todos/" +:+ str_int todo_id) None;
  id ← getitem todo "id";
  title ← getitem todo "title";
  description ← get_or todo "description" (JStr "No description");
  completed ← getitem todo "completed";
  created_at ← getitem todo "created_at";
  updated_at ← getitem todo "updated_at";
  Ok ("Todo Details:" +:+ nl
      +:+ "ID: " +:+ str repr id +:+ nl
      +:+ "Title: " +:+ str repr title +:+ nl
      +:+ "Description: " +:+ str repr description +:+ nl
      +:+ "Status: "
      +:+ (if truthy completed
           then done_glyph +:+ " Completed"
           else pending_glyph +:+ " Pending") +:+ nl
      +:+ "Created: " +:+ str repr created_at +:+ nl
      +:+ "Updated: " +:+ str repr updated_at).

End Tools.

End McpServer.

(** ** Two behaviours of the HTTP client *)

(** The store service cannot be reached: every call raises
    [httpx.ConnectError] with the message [msg]. *)
Definition unreachable (msg : string) : Client.t :=
  Client.mk (λ _, Fails (ConnectError msg)) (λ _ _, Fails (ConnectError msg))
            (λ _ _, Fails (ConnectError msg)) (λ _, Fails (ConnectError msg)).

(** Every call is answered with [response]. *)
Definition answering (response : Response.t) : Client.t :=
  Client.mk (λ _, Answer response) (λ _ _, Answer response)
            (λ _ _, Answer response) (λ _, Answer response).

(** A server that answers every [PUT] by repeating the request: the URL
    comes back under [title] and the JSON body under [id]; the client's
    other methods fail. *)
Definition reflecting (raw : string) : Client.t :=
  Client.mk (λ _, Fails (TransportError "GET"))
            (λ _ _, Fails (TransportError "POST"))
            (λ url data,
               Answer (Response.mk 200 raw
                         (Ok (JObj (<["title" := JStr url]>
                                   (<["id" := from_option JObj JNull data]> ∅))))))
            (λ _, Fails (TransportError "DELETE")).

(** ** Further notions about runs of the store service *)

Module Runs.

(** The update that two successive [PUT] bodies amount to: a field set
    by the later body takes the later value, any other field is as the
    earlier body left it. *)
Definition merge (earlier later : TodoUpdate.t) : TodoUpdate.t :=
  TodoUpdate.mk
    (match TodoUpdate.title later with Some v => Some v | None => TodoUpdate.title earlier end)
    (match TodoUpdate.description later with
     | Some v => Some v
     | None => TodoUpdate.description earlier
     end)
    (match TodoUpdate.completed later with
     | Some v => Some v
     | None => TodoUpdate.completed earlier
     end).

(** How many [DELETE] requests of a run were answered with the
    confirmation message. *)
Fixpoint deleted (reqs : list Store.Request) (resps : list Store.Response) : Z :=
  match reqs, resps with
  | Store.DeleteTodo _ :: reqs', Store.Message _ :: resps' => 1 + deleted reqs' resps'
  | _ :: reqs', _ :: resps' => deleted reqs' resps'
  | _, _ => 0
  end.

(** Every item was last updated no earlier than it was created, at one
    of the clock readings [past]. *)
Definition timestamps_ordered (past : list Z) (w : World) : Prop :=
  Forall (λ t, Todo.created_at t ≤ Todo.updated_at t ∧ Todo.updated_at t ∈ past)
         (todos_db w).

End Runs.

(** ** What the store service sends for its dictionary results *)

Module Sent.

(** The body of [GET /todos/stats]: the dictionary built by
    [get_todo_stats], written as it is. *)
Definition stats (s : Store.Stats) : JValue :=
  JObj (<["total_todos" := JInt (Store.total_todos s)]>
       (<["completed_todos" := JInt (Store.completed_todos s)]>
       (<["pending_todos" := JInt (Store.pending_todos s)]>
       (<["completion_percentage" := Store.completion_percentage s]> ∅)))).

(** The body of a successful [DELETE /todos/{id}]:
    [{"message": ...}]. *)
Definition message (text : string) : JValue :=
  JObj {[ "message" := JStr text ]}.

(** The line that stands for an item in the text of [get_todos], with
    the glyphs of the adapter at hand. *)
Definition line (done_glyph pending_glyph : string) (todo : Todo.t) : string :=
  "ID: " +:+ str_int (Todo.id todo) +:+ " | " +:+ str_opt (Todo.title todo) +:+ " | "
  +:+ (if Store.is_completed todo then done_glyph else pending_glyph) +:+ " | "
  +:+ str_opt (Todo.description todo).

(** The text of [get_todo_by_id] for an item. *)
Definition details (isoformat : Z → string) (done_glyph pending_glyph : string)
    (todo : Todo.t) : string :=
  "Todo Details:" +:+ nl
  +:+ "ID: " +:+ str_int (Todo.id todo) +:+ nl
  +:+ "Title: " +:+ str_opt (Todo.title todo) +:+ nl
  +:+ "Description: " +:+ str_opt (Todo.description todo) +:+ nl
  +:+ "Status: "
  +:+ (if Store.is_completed todo
       then done_glyph +:+ " Completed" else pending_glyph +:+ " Pending") +:+ nl
  +:+ "Created: " +:+ isoformat (Todo.created_at todo) +:+ nl
  +:+ "Updated: " +:+ isoformat (Todo.updated_at todo).

End Sent.

(** ** The tools the embedded adapter declares ([handle_list_tools]) *)

Module ListTools.

(** One entry of [properties] in an input schema. *)
Record Property : Type := mkProperty {
  type : string;
  description : string
}.

(** [inputSchema]: every schema has the type [object]. *)
Record InputSchema : Type := mkInputSchema {
  schema_type : string;
  properties : list (string * Property);
  required : list string
}.

(** [Tool(name=..., description=..., inputSchema=...)]. *)
Record Tool : Type := mkTool {
  name : string;
  tool_description : string;
  inputSchema : InputSchema
}.

(** The list in [ListToolsResult(tools=[...])]. *)
Definition handle_list_tools : list Tool :=
  [ mkTool "get_todos" "Get all todos from the FastAPI application"
      (mkInputSchema "object" [] []);
    mkTool "get_todo_stats" "Get statistics about todos (total, completed, pending)"
      (mkInputSchema "object" [] []);
    mkTool "create_todo" "Create a new todo item"
      (mkInputSchema "object"
         [ ("title", mkProperty "string" "Title of the todo");
           ("description", mkProperty "string" "Description of the todo (optional)");
           ("completed",
            mkProperty "boolean" "Whether the todo is completed (default: false)") ]
         ["title"]);
    mkTool "update_todo" "Update an existing todo"
      (mkInputSchema "object"
         [ ("id", mkProperty "integer" "ID of the todo to update");
           ("title", mkProperty "string" "New title (optional)");
           ("description", mkProperty "string" "New description (optional)");
           ("completed", mkProperty "boolean" "New completion status (optional)") ]
         ["id"]);
    mkTool "delete_todo" "Delete a todo by ID"
      (mkInputSchema "object"
         [ ("id", mkProperty "integer" "ID of the todo to delete") ]
         ["id"]);
    mkTool "get_todo_by_id" "Get a specific todo by ID"
      (mkInputSchema "object"
         [ ("id", mkProperty "integer" "ID of the todo to retrieve") ]
         ["id"]) ].

End ListTools.

(** * Properties of the store service *)

(** ** Statistics *)

Lemma py_sum_from (xs : list Z) (acc : Z) :
  fold_left Z.add xs acc = acc + fold_left Z.add xs 0.
Proof.
  revert acc. induction xs as [|x xs IH]; intros acc; simpl; [lia|].
  rewrite (IH (acc + x)), (IH (0 + x)). lia.
Qed.

Lemma py_sum_ones {A} (xs : list A) :
  Store.py_sum (map (λ _, 1) xs) = Z.of_nat (length xs).
Proof.
  unfold Store.py_sum. induction xs as [|x xs IH]; [done|].
  cbn [map fold_left length]. rewrite py_sum_from, IH. lia.
Qed.

Lemma filter_is_completed (db : list Todo.t) :
  List.filter Store.is_completed db = filter (λ t, Todo.completed t = Some true) db.
Proof.
  induction db as [|t db IH]; [done|].
  cbn [List.filter]. rewrite filter_cons, IH. unfold Store.is_completed.
  destruct (Todo.completed t) as [[]|]; case_decide; congruence.
Qed.

(** C1. [get_todo_stats] reports the length of the collection as the
    total, the number of items whose [completed] flag is [True] as the
    completed count, their difference as the pending count, and as
    percentage [round(completed / total * 100, 2)] when the collection
    is not empty and the integer 0 when it is; on the empty collection
    all four entries are 0. *)
Theorem get_todo_stats_contract (w : World) :
  let s := Store.get_todo_stats w in
  let total := Z.of_nat (length (todos_db w)) in
  let completed :=
    Z.of_nat (length (filter (λ t, Todo.completed t = Some true) (todos_db w))) in
  Store.total_todos s = total
  ∧ Store.completed_todos s = completed
  ∧ Store.pending_todos s = total - completed
  ∧ 0 ≤ completed ≤ total
  ∧ (0 < total →
     Store.completion_percentage s =
       JFloat (PyFloat.round
                 (PrimFloat.mul (PyFloat.truediv completed total) 100%float) 2))
  ∧ (total = 0 → Store.completion_percentage s = JInt 0)
  ∧ (todos_db w = [] → s = Store.mkStats 0 0 0 (JInt 0)).
Proof.
  cbv zeta. unfold Store.get_todo_stats. cbn [Store.total_todos Store.completed_todos
    Store.pending_todos Store.completion_percentage].
  rewrite py_sum_ones, filter_is_completed.
  repeat split.
  - lia.
  - apply Nat2Z.inj_le, length_filter.
  - intros Hpos. apply Z.ltb_lt in Hpos. by rewrite Hpos.
  - intros Hz. rewrite Hz. done.
  - intros ->. done.
Qed.

(** The seeded collection: five items, one of them completed, which
    is 20 percent. *)
Lemma get_todo_stats_seeded :
  Store.get_todo_stats (Store.startup (λ _, 0)) = Store.mkStats 5 1 4 (JFloat 20%float).
Proof.
  destruct (get_todo_stats_contract (Store.startup (λ _, 0)))
    as (Htotal & Hcompleted & Hpending & _ & Hpercentage & _).
  destruct (Store.get_todo_stats (Store.startup (λ _, 0)))
    as [total completed pending percentage].
  cbn [Store.total_todos Store.completed_todos Store.pending_todos
       Store.completion_percentage] in *.
  rewrite Htotal, Hcompleted, Hpending, Hpercentage by (vm_compute; reflexivity).
  vm_compute. reflexivity.
Defined.

(** ** Scanning the collection for an id *)

Lemma scan_spec (todo_id : Z) (db : list Todo.t) (i : nat) :
  match Store.scan todo_id i db with
  | Some (j, todo) =>
      ∃ k : nat, j = (i + k)%nat ∧ db !! k = Some todo ∧ Todo.id todo = todo_id
                 ∧ Forall (λ t, Todo.id t ≠ todo_id) (take k db)
  | None => Forall (λ t, Todo.id t ≠ todo_id) db
  end.
Proof.
  revert i. induction db as [|t db IH]; intros i; cbn [Store.scan]; [constructor|].
  destruct (Z.eqb_spec (Todo.id t) todo_id) as [Heq|Hne].
  - exists 0%nat. repeat split; [lia|done|constructor].
  - specialize (IH (S i)). destruct (Store.scan todo_id (S i) db) as [[j todo]|].
    + destruct IH as (k & -> & Hk & Hid & Hbefore).
      exists (S k). repeat split; [lia|done|done|]. cbn [take]. by constructor.
    + by constructor.
Qed.

Lemma scan_Some (todo_id : Z) (db : list Todo.t) (j : nat) (todo : Todo.t) :
  Store.scan todo_id 0 db = Some (j, todo) ↔
  db !! j = Some todo ∧ Todo.id todo = todo_id
  ∧ Forall (λ t, Todo.id t ≠ todo_id) (take j db).
Proof.
  split.
  - intros Hscan. pose proof (scan_spec todo_id db 0) as H. rewrite Hscan in H.
    destruct H as (k & -> & H). exact H.
  - intros (Hj & Hid & Hbefore).
    pose proof (scan_spec todo_id db 0) as H.
    destruct (Store.scan todo_id 0 db) as [[j' todo']|].
    + destruct H as (k & -> & Hk & Hid' & Hbefore'). cbn [Nat.add].
      destruct (Nat.lt_trichotomy k j) as [Hlt|[->|Hgt]].
      * exfalso. assert (take j db !! k = Some todo') as Hk'
          by (by rewrite lookup_take_lt by lia).
        by apply (Forall_lookup_1 _ _ _ _ Hbefore Hk').
      * naive_solver.
      * exfalso. assert (take k db !! j = Some todo) as Hj'
          by (by rewrite lookup_take_lt by lia).
        by apply (Forall_lookup_1 _ _ _ _ Hbefore' Hj').
    + exfalso. by apply (Forall_lookup_1 _ _ _ _ H Hj).
Qed.

Lemma scan_None (todo_id : Z) (db : list Todo.t) :
  Store.scan todo_id 0 db = None ↔ todo_id ∉ Todo.id <$> db.
Proof.
  pose proof (scan_spec todo_id db 0) as H. split.
  - intros Hscan. rewrite Hscan in H. intros (t & -> & Ht)%list_elem_of_fmap.
    rewrite Forall_forall in H. by apply (H t).
  - intros Hnotin. destruct (Store.scan todo_id 0 db) as [[j todo]|]; [|done].
    destruct H as (k & _ & Hk & Hid & _). exfalso. apply Hnotin.
    apply list_elem_of_fmap. exists todo. split; [done|]. by eapply list_elem_of_lookup_2.
Qed.

Lemma get_todo_Ok (todo_id : Z) (w : World) (todo : Todo.t) :
  Store.get_todo todo_id w = Ok todo ↔
  ∃ j, Store.scan todo_id 0 (todos_db w) = Some (j, todo).
Proof.
  unfold Store.get_todo. destruct (Store.scan todo_id 0 (todos_db w)) as [[j t]|].
  - split; [intros [= ->]; eauto | intros (j' & [= _ ->]); done].
  - split; [done | intros (? & ?); done].
Qed.

Lemma get_todo_not_found (todo_id : Z) (w : World) :
  Store.get_todo todo_id w = Raise Store.not_found ↔ todo_id ∉ Store.ids w.
Proof.
  unfold Store.ids. rewrite <- scan_None. unfold Store.get_todo.
  destruct (Store.scan todo_id 0 (todos_db w)) as [[j t]|]; split; done.
Qed.

(** ** The id counter and the ids of the collection *)

Lemma id_invariant_append (w : World) (data : TodoCreate.t) (now1 now2 : Z) :
  Store.id_invariant w →
  Store.id_invariant (Store.append_todo w (Store.new_todo w data now1 now2)).
Proof.
  unfold Store.id_invariant, Store.ids. intros [Hnodup Hbelow]. cbn.
  rewrite fmap_app. cbn. split.
  - apply NoDup_app. repeat split; [done| |apply NoDup_singleton].
    intros i Hi ->%list_elem_of_singleton.
    rewrite Forall_forall in Hbelow. specialize (Hbelow _ Hi). lia.
  - apply Forall_app. split; [|repeat constructor; lia].
    eapply Forall_impl; [exact Hbelow|]. cbn. intros; lia.
Qed.

Lemma seed_loop_invariant (clock : nat → Z) (data : list TodoCreate.t) :
  ∀ (k : nat) (w : World),
    Store.id_invariant w →
    Store.id_invariant (Store.seed_loop clock k data w)
    ∧ next_id (Store.seed_loop clock k data w) = next_id w + Z.of_nat (length data).
Proof.
  induction data as [|d data IH]; intros k w Hinv; cbn [Store.seed_loop length].
  - split; [done|lia].
  - destruct (IH (S (S k)) _ (id_invariant_append w d (clock k) (clock (S k)) Hinv))
      as [Hinv' Hnext].
    split; [done|]. rewrite Hnext. cbn. lia.
Qed.

Lemma id_invariant_initial : Store.id_invariant Store.initial.
Proof. split; cbn; constructor. Qed.

Lemma id_invariant_startup (clock : nat → Z) : Store.id_invariant (Store.startup clock).
Proof. apply seed_loop_invariant, id_invariant_initial. Qed.

Lemma setattr_all_id (todo : Todo.t) (assignments : list Store.Assignment) :
  Todo.id (fold_left Store.setattr assignments todo) = Todo.id todo
  ∧ Todo.created_at (fold_left Store.setattr assignments todo) = Todo.created_at todo
  ∧ Todo.updated_at (fold_left Store.setattr assignments todo) = Todo.updated_at todo.
Proof.
  revert todo. induction assignments as [|a l IH]; intros todo; cbn [fold_left]; [done|].
  destruct (IH (Store.setattr todo a)) as (-> & -> & ->). by destruct a.
Qed.

(** What the [setattr] loop leaves in the three updatable fields. *)
Lemma setattr_all_fields (todo : Todo.t) (u : TodoUpdate.t) :
  let todo' := fold_left Store.setattr (Store.dict_exclude_unset u) todo in
  Todo.title todo' = default (Todo.title todo) (TodoUpdate.title u)
  ∧ Todo.description todo' = default (Todo.description todo) (TodoUpdate.description u)
  ∧ Todo.completed todo' = default (Todo.completed todo) (TodoUpdate.completed u).
Proof. destruct u as [[?|] [?|] [?|]]; done. Qed.

Lemma update_todo_found (todo_id : Z) (u : TodoUpdate.t) (now : Z) (w : World)
    (j : nat) (old : Todo.t) :
  Store.scan todo_id 0 (todos_db w) = Some (j, old) →
  let new := Store.touch (fold_left Store.setattr (Store.dict_exclude_unset u) old) now in
  Store.update_todo todo_id u now w
  = (Ok new, mkWorld (<[j := new]> (todos_db w)) (next_id w))
  ∧ Todo.id new = todo_id
  ∧ Store.ids (mkWorld (<[j := new]> (todos_db w)) (next_id w)) = Store.ids w
  ∧ Store.scan todo_id 0 (<[j := new]> (todos_db w)) = Some (j, new).
Proof.
  intros Hscan new. unfold Store.update_todo. rewrite Hscan.
  apply scan_Some in Hscan as (Hj & Hid & Hbefore).
  assert (Todo.id new = todo_id) as Hnew.
  { unfold new. cbn. by rewrite (proj1 (setattr_all_id _ _)). }
  repeat split; [done| |].
  - unfold Store.ids. cbn. rewrite list_fmap_insert. apply list_insert_id.
    rewrite list_lookup_fmap, Hj. cbn. by rewrite (proj1 (setattr_all_id _ _)).
  - apply scan_Some. repeat split; [|done|by rewrite take_insert_ge].
    apply list_lookup_insert_eq. by eapply lookup_lt_Some.
Qed.

Lemma update_todo_missing (todo_id : Z) (u : TodoUpdate.t) (now : Z) (w : World) :
  Store.scan todo_id 0 (todos_db w) = None →
  Store.update_todo todo_id u now w = (Raise Store.not_found, w).
Proof. intros Hscan. unfold Store.update_todo. by rewrite Hscan. Qed.

Lemma delete_todo_found (todo_id : Z) (w : World) (j : nat) (old : Todo.t) :
  Store.scan todo_id 0 (todos_db w) = Some (j, old) →
  Store.delete_todo todo_id w
  = (Ok (Store.deleted_message old), mkWorld (delete j (todos_db w)) (next_id w)).
Proof.
  intros Hscan. unfold Store.delete_todo. rewrite Hscan.
  apply scan_Some in Hscan as (-> & _). done.
Qed.

Lemma delete_todo_missing (todo_id : Z) (w : World) :
  Store.scan todo_id 0 (todos_db w) = None →
  Store.delete_todo todo_id w = (Raise Store.not_found, w).
Proof. intros Hscan. unfold Store.delete_todo. by rewrite Hscan. Qed.

Lemma id_invariant_delete (w : World) (j : nat) :
  Store.id_invariant w →
  Store.id_invariant (mkWorld (delete j (todos_db w)) (next_id w)).
Proof.
  unfold Store.id_invariant, Store.ids. cbn. intros [Hnodup Hbelow].
  rewrite list_fmap_delete. split.
  - eapply sublist_NoDup; [done|apply sublist_delete].
  - by apply Forall_delete.
Qed.

Lemma handle_next_id (req : Store.Request) (w : World) :
  next_id (Store.handle req w).2
  = if Store.is_post req then next_id w + 1 else next_id w.
Proof.
  destruct req as [| |todo_id|body now1 now2|todo_id body now|todo_id]; cbn; try done.
  - unfold Store.update_todo. by destruct (Store.scan _ _ _) as [[? ?]|].
  - unfold Store.delete_todo. destruct (Store.scan _ _ _) as [[i ?]|]; [|done].
    by destruct (todos_db w !! i).
Qed.

Lemma handle_invariant (req : Store.Request) (w : World) :
  Store.id_invariant w → Store.id_invariant (Store.handle req w).2.
Proof.
  intros Hinv.
  destruct req as [| |todo_id|body now1 now2|todo_id body now|todo_id]; cbn; try done.
  - by apply id_invariant_append.
  - destruct (Store.scan todo_id 0 (todos_db w)) as [[j old]|] eqn:Hscan.
    + destruct (update_todo_found todo_id body now w j old Hscan) as (-> & _ & Hids & _).
      cbn. unfold Store.id_invariant. rewrite Hids. exact Hinv.
    + by rewrite update_todo_missing.
  - destruct (Store.scan todo_id 0 (todos_db w)) as [[j old]|] eqn:Hscan.
    + rewrite (delete_todo_found _ _ _ _ Hscan). cbn. by apply id_invariant_delete.
    + by rewrite delete_todo_missing.
Qed.

Lemma run_cons (req : Store.Request) (reqs : list Store.Request) (w : World) :
  Store.run (req :: reqs) w
  = ((Store.handle req w).1 :: (Store.run reqs (Store.handle req w).2).1,
     (Store.run reqs (Store.handle req w).2).2).
Proof.
  cbn [Store.run]. destruct (Store.handle req w) as [resp w1]. cbn.
  by destruct (Store.run reqs w1).
Qed.

Lemma run_app (reqs1 reqs2 : list Store.Request) (w : World) :
  (Store.run (reqs1 ++ reqs2) w).2 = (Store.run reqs2 (Store.run reqs1 w).2).2.
Proof.
  revert w. induction reqs1 as [|req reqs1 IH]; intros w; [done|].
  cbn [app]. rewrite !run_cons. cbn. apply IH.
Qed.

Lemma created_ids_cons (req : Store.Request) (reqs : list Store.Request)
    (resps : list Store.Response) (w : World) :
  Store.created_ids (req :: reqs) ((Store.handle req w).1 :: resps)
  = if Store.is_post req then next_id w :: Store.created_ids reqs resps
    else Store.created_ids reqs resps.
Proof. by destruct req. Qed.

Lemma run_ids (reqs : list Store.Request) :
  ∀ w : World,
    Store.id_invariant w →
    let resps := (Store.run reqs w).1 in
    let w' := (Store.run reqs w).2 in
    Store.id_invariant w'
    ∧ next_id w' = next_id w + Store.posts reqs
    ∧ StronglySorted Z.lt (Store.created_ids reqs resps)
    ∧ Forall (λ i, next_id w ≤ i < next_id w') (Store.created_ids reqs resps)
    ∧ Z.of_nat (length (Store.created_ids reqs resps)) = Store.posts reqs.
Proof.
  unfold Store.posts.
  induction reqs as [|req reqs IH]; intros w Hinv; cbv zeta.
  - cbn. repeat split; [apply Hinv..|lia|constructor|constructor].
  - rewrite run_cons. cbn [fst snd]. rewrite created_ids_cons.
    pose proof (handle_invariant req w Hinv) as Hinv1.
    pose proof (handle_next_id req w) as Hnext1.
    destruct (IH _ Hinv1) as (Hinv2 & Hnext2 & Hsorted & Hrange & Hlen).
    rewrite filter_cons.
    destruct (Store.is_post req); case_decide; try done; cbn [length].
    + repeat split; [apply Hinv2..|lia| | |lia].
      * constructor; [done|]. eapply Forall_impl; [exact Hrange|]. cbn. intros; lia.
      * constructor; [lia|]. eapply Forall_impl; [exact Hrange|]. cbn. intros; lia.
    + repeat split; [apply Hinv2..|lia|done| |done].
      rewrite <- Hnext1. exact Hrange.
Qed.

Lemma increasing_NoDup (l : list Z) : StronglySorted Z.lt l → NoDup l.
Proof.
  induction 1 as [|x l _ IH Hall]; constructor; [|done].
  intros Hx. rewrite Forall_forall in Hall. specialize (Hall _ Hx). lia.
Qed.

(** C2. The counter is 1 before seeding and 6 after it; a create hands
    out the current counter value and adds exactly 1 to it, every other
    request leaves the counter alone; so over any run of requests
    served after start-up the ids returned by the creates are strictly
    increasing, pairwise different and never one of the seeded ids,
    whatever deletes and updates lie in between, and in the state
    reached the ids of the collection are pairwise different and all
    below the counter. *)
Theorem id_allocation_contract :
  next_id Store.initial = 1
  ∧ (∀ clock, next_id (Store.startup clock) = 6)
  ∧ (∀ body now1 now2 w,
       Todo.id (Store.create_todo body now1 now2 w).1 = next_id w
       ∧ next_id (Store.create_todo body now1 now2 w).2 = next_id w + 1)
  ∧ (∀ req w,
       next_id (Store.handle req w).2
       = if Store.is_post req then next_id w + 1 else next_id w)
  ∧ (∀ clock reqs,
       let resps := (Store.run reqs (Store.startup clock)).1 in
       let w := (Store.run reqs (Store.startup clock)).2 in
       StronglySorted Z.lt (Store.created_ids reqs resps)
       ∧ NoDup (Store.created_ids reqs resps)
       ∧ Z.of_nat (length (Store.created_ids reqs resps)) = Store.posts reqs
       ∧ Forall (λ i, 6 ≤ i < next_id w) (Store.created_ids reqs resps)
       ∧ NoDup (Store.ids w)
       ∧ Forall (λ i, i < next_id w) (Store.ids w)
       ∧ next_id w = 6 + Store.posts reqs).
Proof.
  split; [done|]. split; [done|]. split; [done|]. split; [apply handle_next_id|].
  intros clock reqs. cbv zeta.
  destruct (run_ids reqs _ (id_invariant_startup clock))
    as ([Hnodup Hbelow] & Hnext & Hsorted & Hrange & Hlen).
  repeat split; try done. by apply increasing_NoDup.
Qed.

(** ** Create *)

(** C3. The item returned by a create carries the current counter value
    as id, which no item of a collection reached from start-up has; its
    [created_at] is the first and its [updated_at] the second of two
    successive clock readings, so the two are equal exactly when the
    clock shows the same value twice, and ordered when the clock does
    not run backwards; the item is appended to the collection; a
    request with only a title yields [description = None] and
    [completed = False]. *)
Theorem create_todo_contract (body : TodoCreate.t) (now1 now2 : Z) (w : World) :
  let todo := (Store.create_todo body now1 now2 w).1 in
  let w' := (Store.create_todo body now1 now2 w).2 in
  Todo.id todo = next_id w
  ∧ (Store.id_invariant w → Todo.id todo ∉ Store.ids w)
  ∧ (∀ clock reqs, w = (Store.run reqs (Store.startup clock)).2 →
       (Todo.id todo ∉ Store.ids w) ∧ Store.get_todo (Todo.id todo) w' = Ok todo)
  ∧ Todo.created_at todo = now1
  ∧ Todo.updated_at todo = now2
  ∧ (Todo.created_at todo = Todo.updated_at todo ↔ now1 = now2)
  ∧ (now1 ≤ now2 → Todo.created_at todo ≤ Todo.updated_at todo)
  ∧ Todo.title todo = Some (TodoCreate.title body)
  ∧ Todo.description todo = TodoCreate.description body
  ∧ Todo.completed todo = Some (TodoCreate.completed body)
  ∧ todos_db w' = todos_db w ++ [todo]
  ∧ (∀ title, Wire.todo_create_of_json {[ "title" := JStr title ]} = Some body →
       Todo.title todo = Some title
       ∧ Todo.description todo = None
       ∧ Todo.completed todo = Some false).
Proof.
  cbv zeta. cbn [Store.create_todo fst snd Store.new_todo Store.append_todo
                 Todo.id Todo.created_at Todo.updated_at Todo.title Todo.description
                 Todo.completed todos_db].
  assert (∀ w0, Store.id_invariant w0 → next_id w0 ∉ Store.ids w0) as Hfresh.
  { intros w0 [_ Hbelow] Hin. rewrite Forall_forall in Hbelow.
    specialize (Hbelow _ Hin). lia. }
  split; [done|]. split; [apply Hfresh|]. split.
  { intros clock reqs ->. set (w := (Store.run reqs (Store.startup clock)).2).
    assert (Store.id_invariant w) as Hinv
      by apply (run_ids reqs _ (id_invariant_startup clock)).
    split; [by apply Hfresh|].
    apply get_todo_Ok. exists (length (todos_db w)). apply scan_Some. cbn.
    split; [by rewrite lookup_app_r, Nat.sub_diag|]. split; [done|].
    rewrite take_app_length. apply Forall_forall. intros t Ht Hid.
    apply (Hfresh w Hinv). rewrite <- Hid. by apply list_elem_of_fmap_2. }
  split; [done|]. split; [done|]. split; [done|]. split; [done|].
  split; [done|]. split; [done|]. split; [done|]. split; [done|].
  intros title [= <-]. done.
Qed.

(** The claim as written (C3): [created_at == updated_at] on every
    create.  The clock is read twice; when it advances in between, the
    two fields differ. *)
Lemma create_todo_reads_clock_twice :
  let todo := (Store.create_todo (TodoCreate.mk "X" None false) 1000 1001
                 (Store.startup (λ _, 0))).1 in
  Todo.created_at todo = 1000
  ∧ Todo.updated_at todo = 1001
  ∧ Todo.created_at todo ≠ Todo.updated_at todo.
Proof. cbn. repeat split; done. Qed.

(** The same create, read through the contract: id 6 is new, the two
    timestamps are ordered, description and completed take their
    defaults. *)
Lemma create_todo_after_startup :
  let w := Store.startup (λ _, 0) in
  let todo := (Store.create_todo (TodoCreate.mk "X" None false) 1000 1001 w).1 in
  Todo.id todo = 6
  ∧ (Todo.id todo ∉ Store.ids w)
  ∧ Todo.created_at todo ≤ Todo.updated_at todo
  ∧ Todo.description todo = None
  ∧ Todo.completed todo = Some false.
Proof.
  cbv zeta.
  destruct (create_todo_contract (TodoCreate.mk "X" None false) 1000 1001
              (Store.startup (λ _, 0)))
    as (Hid & _ & Hfresh & _ & _ & _ & Hordered & _ & _ & _ & _ & Hdefaults).
  destruct (Hfresh (λ _, 0) [] eq_refl) as [Hnew _].
  destruct (Hdefaults "X") as (_ & Hdescription & Hcompleted);
    [vm_compute; reflexivity|].
  split; [exact Hid|]. split; [exact Hnew|]. split; [apply Hordered; lia|].
  split; [exact Hdescription|exact Hcompleted].
Defined.

(** ** Update *)

Lemma stamped_within_mono (past more : list Z) (w : World) :
  Store.stamped_within past w → Store.stamped_within (past ++ more) w.
Proof.
  unfold Store.stamped_within. intros H. eapply Forall_impl; [exact H|].
  cbn. intros t Ht. apply elem_of_app. by left.
Qed.

Lemma startup_stamped (clock : nat → Z) :
  Store.stamped_within (clock <$> seq 0 10) (Store.startup clock).
Proof. unfold Store.stamped_within. cbn. repeat constructor; cbn; set_solver. Qed.

Lemma handle_stamped (req : Store.Request) (past : list Z) (w : World) :
  Store.stamped_within past w →
  Store.stamped_within (past ++ Store.readings req) (Store.handle req w).2.
Proof.
  intros Hpast.
  pose proof (stamped_within_mono past (Store.readings req) w Hpast) as Hmono.
  destruct req as [| |todo_id|body now1 now2|todo_id body now|todo_id];
    cbn [Store.handle snd]; try done.
  - cbn. unfold Store.stamped_within in *. cbn. apply Forall_app. split; [done|].
    repeat constructor. cbn. set_solver.
  - destruct (Store.scan todo_id 0 (todos_db w)) as [[j old]|] eqn:Hscan.
    + destruct (update_todo_found todo_id body now w j old Hscan) as (-> & _).
      cbn. unfold Store.stamped_within in *. cbn [todos_db].
      apply Forall_insert; [done|]. cbn. set_solver.
    + by rewrite update_todo_missing.
  - destruct (Store.scan todo_id 0 (todos_db w)) as [[j old]|] eqn:Hscan.
    + rewrite (delete_todo_found _ _ _ _ Hscan). cbn.
      unfold Store.stamped_within in *. cbn [todos_db]. by apply Forall_delete.
    + by rewrite delete_todo_missing.
Qed.

Lemma run_stamped (reqs : list Store.Request) :
  ∀ (past : list Z) (w : World),
    Store.stamped_within past w →
    Store.stamped_within (past ++ concat (Store.readings <$> reqs)) (Store.run reqs w).2.
Proof.
  induction reqs as [|req reqs IH]; intros past w Hpast.
  - cbn. by rewrite app_nil_r.
  - rewrite run_cons. cbn [snd fmap list_fmap concat]. rewrite app_assoc.
    apply IH. by apply handle_stamped.
Qed.

(** C4. An update of an id that the collection holds returns the stored
    item with every field the request set replaced by the value sent
    and every other field, the id and [created_at] as they were; its
    [updated_at] is the clock reading taken by the handler, which is not
    earlier than the previous value whenever the clock has not run
    backwards since start-up; the item takes the place of the old one
    and all other items stay as they are.  A request that sets only
    [completed] to [True] leaves title and description alone.  An
    update of an id that no item has raises the 404 error and leaves
    collection and counter as they were. *)
Theorem update_todo_contract (todo_id : Z) (u : TodoUpdate.t) (now : Z) (w : World) :
  (∀ old, Store.get_todo todo_id w = Ok old →
     ∃ (new : Todo.t) (j : nat),
       Store.update_todo todo_id u now w
       = (Ok new, mkWorld (<[j := new]> (todos_db w)) (next_id w))
       ∧ todos_db w !! j = Some old
       ∧ Todo.id new = Todo.id old
       ∧ Todo.created_at new = Todo.created_at old
       ∧ Todo.title new = default (Todo.title old) (TodoUpdate.title u)
       ∧ Todo.description new = default (Todo.description old) (TodoUpdate.description u)
       ∧ Todo.completed new = default (Todo.completed old) (TodoUpdate.completed u)
       ∧ (u = TodoUpdate.mk None None (Some (Some true)) →
          Todo.title new = Todo.title old
          ∧ Todo.description new = Todo.description old
          ∧ Todo.completed new = Some true)
       ∧ Todo.updated_at new = now
       ∧ (Todo.updated_at old ≤ now → Todo.updated_at old ≤ Todo.updated_at new)
       ∧ (∀ clock reqs,
            w = (Store.run reqs (Store.startup clock)).2 →
            Sorted Z.le (Store.clock_readings clock reqs ++ [now]) →
            Todo.updated_at old ≤ Todo.updated_at new)
       ∧ Store.get_todo todo_id (Store.update_todo todo_id u now w).2 = Ok new
       ∧ (∀ k, k ≠ j →
            todos_db (Store.update_todo todo_id u now w).2 !! k = todos_db w !! k))
  ∧ (todo_id ∉ Store.ids w →
     Store.update_todo todo_id u now w = (Raise Store.not_found, w)).
Proof.
  split.
  - intros old (j & Hscan)%get_todo_Ok.
    destruct (update_todo_found todo_id u now w j old Hscan) as (Hupd & Hid & _ & Hscan').
    destruct (setattr_all_id old (Store.dict_exclude_unset u)) as (Hid0 & Hcreated & _).
    destruct (setattr_all_fields old u) as (Htitle & Hdescr & Hcompl).
    pose proof Hscan as (Hj & Hidold & _)%scan_Some.
    eexists _, j. split; [exact Hupd|]. rewrite Hupd. cbn [snd todos_db].
    split; [done|]. split; [by rewrite Hid|]. split; [exact Hcreated|].
    split; [exact Htitle|]. split; [exact Hdescr|]. split; [exact Hcompl|].
    split; [by intros ->|]. split; [done|]. split; [done|]. split; [|split].
    + intros clock reqs -> Hsorted. cbn [Store.touch Todo.updated_at].
      apply (Sorted_StronglySorted Z.le) in Hsorted.
      eapply (StronglySorted_app_1_elem_of Z.le); [exact Hsorted| |set_solver].
      pose proof (run_stamped reqs _ _ (startup_stamped clock)) as Hpast.
      unfold Store.stamped_within in Hpast. rewrite Forall_forall in Hpast.
      apply (Hpast old). by eapply list_elem_of_lookup_2.
    + apply get_todo_Ok. by exists j.
    + intros k Hk. by apply list_lookup_insert_ne.
  - intros Hmissing. apply update_todo_missing. by apply scan_None.
Qed.

(** On the seeded collection, with the clock at 20 after the ten
    readings 0..9 of start-up: item 4 is set back to pending. *)
Lemma update_todo_after_startup :
  let w := Store.startup (λ k, Z.of_nat k) in
  ∃ (new : Todo.t) (j : nat),
    Store.update_todo 4 (TodoUpdate.mk None None (Some (Some false))) 20 w
    = (Ok new, mkWorld (<[j := new]> (todos_db w)) (next_id w))
    ∧ Todo.title new = Some "Deploy Application"
    ∧ Todo.description new = Some "Deploy to production"
    ∧ Todo.completed new = Some false
    ∧ Todo.updated_at new = 20
    ∧ 7 ≤ Todo.updated_at new.
Proof.
  cbv zeta.
  destruct (update_todo_contract 4 (TodoUpdate.mk None None (Some (Some false))) 20
              (Store.startup (λ k, Z.of_nat k))) as [Hfound _].
  destruct (Hfound (Todo.mk 4 (Some "Deploy Application") (Some "Deploy to production")
                            (Some true) 6 7))
    as (new & j & Hupdate & _ & _ & _ & Htitle & Hdescription & Hcompleted & _
        & Hnow & _ & Hclock & _);
    [vm_compute; reflexivity|].
  exists new, j. split; [exact Hupdate|]. split; [exact Htitle|].
  split; [exact Hdescription|]. split; [exact Hcompleted|]. split; [exact Hnow|].
  apply (Hclock (λ k, Z.of_nat k) []); [reflexivity|].
  cbn. repeat first [lia | constructor].
Defined.

(** The claim as written (C4): every update leaves [updated_at] at or
    after its previous value.  The handler stamps whatever the wall
    clock shows; when the clock has been set back, here to 3 after the
    readings 0..9 of start-up, item 4 goes from 7 to 3. *)
Lemma update_todo_clock_set_back :
  let w := Store.startup (λ k, Z.of_nat k) in
  ∃ old new : Todo.t,
    Store.get_todo 4 w = Ok old
    ∧ (Store.update_todo 4 (TodoUpdate.mk None None (Some (Some false))) 3 w).1 = Ok new
    ∧ Todo.updated_at old = 7
    ∧ Todo.updated_at new = 3
    ∧ ¬ (Todo.updated_at old ≤ Todo.updated_at new).
Proof.
  cbv zeta. eexists _, _.
  split; [vm_compute; reflexivity|]. split; [vm_compute; reflexivity|].
  cbn. split; [done|]. split; [done|]. lia.
Qed.

(** ** Delete *)

Lemma prefix_app_refl (s rest : string) : String.prefix s (s +:+ rest) = true.
Proof.
  induction s as [|c s IH]; [by destruct rest|].
  change (String c s +:+ rest) with (String c (s +:+ rest)).
  cbn [String.prefix]. by destruct (Ascii.ascii_dec c c).
Qed.

(** A string occurs in whatever is built around it. *)
Lemma contains_middle (before s rest : string) :
  contains s (before +:+ s +:+ rest) = true.
Proof.
  induction before as [|c before IH].
  - change (EmptyString +:+ s +:+ rest) with (s +:+ rest).
    destruct s as [|c s]; [by destruct rest|].
    change (String c s +:+ rest) with (String c (s +:+ rest)) at 1.
    cbn [contains].
    change (String c (s +:+ rest)) with (String c s +:+ rest).
    by rewrite prefix_app_refl.
  - change (String c before +:+ s +:+ rest) with (String c (before +:+ s +:+ rest)).
    cbn [contains]. rewrite IH. apply orb_true_r.
Qed.

Lemma delete_removes_id (todo_id : Z) (w : World) (j : nat) (old : Todo.t) :
  NoDup (Store.ids w) →
  Store.scan todo_id 0 (todos_db w) = Some (j, old) →
  todo_id ∉ Store.ids (mkWorld (delete j (todos_db w)) (next_id w)).
Proof.
  unfold Store.ids. cbn. intros Hnodup (Hj & Hid & _)%scan_Some.
  rewrite list_fmap_delete.
  assert ((Todo.id <$> todos_db w) !! j = Some todo_id) as Hat
    by (by rewrite list_lookup_fmap, Hj; cbn; rewrite Hid).
  intros (k & Hk)%list_elem_of_lookup_1.
  destruct (decide (k < j)%nat) as [Hlt|Hge].
  - rewrite list_lookup_delete_lt in Hk by done.
    pose proof (NoDup_lookup _ _ _ _ Hnodup Hk Hat). lia.
  - rewrite list_lookup_delete_ge in Hk by lia.
    pose proof (NoDup_lookup _ _ _ _ Hnodup Hk Hat). lia.
Qed.

(** An id below the counter that is not in the collection stays out of
    it, whatever requests follow. *)
Lemma handle_absent (todo_id : Z) (req : Store.Request) (w : World) :
  todo_id < next_id w → todo_id ∉ Store.ids w →
  todo_id < next_id (Store.handle req w).2 ∧ todo_id ∉ Store.ids (Store.handle req w).2.
Proof.
  intros Hbelow Habsent. split.
  { rewrite handle_next_id. destruct (Store.is_post req); lia. }
  destruct req as [| |id'|body now1 now2|id' body now|id']; cbn [Store.handle snd]; try done.
  - cbn. unfold Store.ids in *. cbn. rewrite fmap_app. cbn.
    rewrite elem_of_app, list_elem_of_singleton. intros [?|?]; [done|lia].
  - destruct (Store.scan id' 0 (todos_db w)) as [[j old]|] eqn:Hscan.
    + destruct (update_todo_found id' body now w j old Hscan) as (-> & _ & Hids & _).
      cbn [snd]. by rewrite Hids.
    + by rewrite update_todo_missing.
  - destruct (Store.scan id' 0 (todos_db w)) as [[j old]|] eqn:Hscan.
    + rewrite (delete_todo_found _ _ _ _ Hscan). unfold Store.ids in *. cbn.
      rewrite list_fmap_delete. intros Hin. apply Habsent.
      by eapply list_elem_of_delete_inv.
    + by rewrite delete_todo_missing.
Qed.

Lemma run_absent (todo_id : Z) (reqs : list Store.Request) :
  ∀ w : World,
    todo_id < next_id w → todo_id ∉ Store.ids w →
    todo_id ∉ Store.ids (Store.run reqs w).2.
Proof.
  induction reqs as [|req reqs IH]; intros w Hbelow Habsent; [done|].
  rewrite run_cons. cbn [snd].
  destruct (handle_absent todo_id req w Hbelow Habsent). by apply IH.
Qed.

(** C5. A delete returns a message exactly when some item of the
    collection has the id, and raises the 404 error with collection and
    counter unchanged otherwise.  The message is
    [Todo '<title>' deleted successfully] for the title of the item
    found, which is removed from the collection while all others stay;
    when ids are unique, as they are in every state reached from
    start-up, a get of the same id then raises the 404 error, right
    after the delete and after any further requests. *)
Theorem delete_todo_contract (todo_id : Z) (w : World) :
  ((∃ message, (Store.delete_todo todo_id w).1 = Ok message) ↔ todo_id ∈ Store.ids w)
  ∧ (∀ old, Store.get_todo todo_id w = Ok old →
       ∃ j : nat,
         Store.delete_todo todo_id w
         = (Ok ("Todo '" +:+ str_opt (Todo.title old) +:+ "' deleted successfully"),
            mkWorld (delete j (todos_db w)) (next_id w))
         ∧ todos_db w !! j = Some old
         ∧ contains (str_opt (Todo.title old))
             ("Todo '" +:+ str_opt (Todo.title old) +:+ "' deleted successfully") = true)
  ∧ (todo_id ∉ Store.ids w →
       Store.delete_todo todo_id w = (Raise Store.not_found, w))
  ∧ (NoDup (Store.ids w) →
       Store.get_todo todo_id (Store.delete_todo todo_id w).2 = Raise Store.not_found)
  ∧ (∀ clock before after,
       w = (Store.run before (Store.startup clock)).2 →
       todo_id ∈ Store.ids w →
       Store.get_todo todo_id (Store.delete_todo todo_id w).2 = Raise Store.not_found
       ∧ Store.get_todo todo_id (Store.run after (Store.delete_todo todo_id w).2).2
         = Raise Store.not_found).
Proof.
  assert (NoDup (Store.ids w) → todo_id ∉ Store.ids (Store.delete_todo todo_id w).2)
    as Hgone.
  { intros Hnodup.
    destruct (Store.scan todo_id 0 (todos_db w)) as [[j old]|] eqn:Hscan.
    - rewrite (delete_todo_found _ _ _ _ Hscan). cbn [snd].
      by eapply delete_removes_id.
    - rewrite delete_todo_missing by done. by apply scan_None. }
  split; [|split; [|split; [|split]]].
  - destruct (Store.scan todo_id 0 (todos_db w)) as [[j old]|] eqn:Hscan.
    + rewrite (delete_todo_found _ _ _ _ Hscan). cbn [fst]. split; [|by eauto].
      intros _. destruct (decide (todo_id ∈ Store.ids w)) as [|Hnotin]; [done|].
      apply scan_None in Hnotin. congruence.
    + rewrite delete_todo_missing by done. cbn [fst]. split; [by intros [? ?]|].
      intros Hin. by apply scan_None in Hscan.
  - intros old (j & Hscan)%get_todo_Ok. exists j.
    split; [by apply delete_todo_found|].
    split; [by apply scan_Some in Hscan as (? & _)|].
    apply contains_middle.
  - intros Hnotin. apply delete_todo_missing. by apply scan_None.
  - intros Hnodup. by apply get_todo_not_found, Hgone.
  - intros clock before after Hw Hin.
    assert (Store.id_invariant w) as [Hnodup Hbelow]
      by (rewrite Hw; apply (run_ids before _ (id_invariant_startup clock))).
    split; [by apply get_todo_not_found, Hgone|].
    apply get_todo_not_found, run_absent; [|by apply Hgone].
    rewrite Forall_forall in Hbelow. specialize (Hbelow _ Hin).
    pose proof (handle_next_id (Store.DeleteTodo todo_id) w) as Hnext.
    cbn in Hnext. destruct (Store.delete_todo todo_id w) as [r w']. cbn in *. lia.
Qed.

(** On the seeded collection: item 4 is deleted and stays away while
    two more items are created. *)
Lemma delete_todo_after_startup :
  let w := Store.startup (λ _, 0) in
  (∃ message, (Store.delete_todo 4 w).1 = Ok message)
  ∧ Store.get_todo 4 (Store.delete_todo 4 w).2 = Raise Store.not_found
  ∧ Store.get_todo 4
      (Store.run [ Store.PostTodo (TodoCreate.mk "A" None false) 1 2;
                   Store.PostTodo (TodoCreate.mk "B" None false) 3 4 ]
                 (Store.delete_todo 4 w).2).2
    = Raise Store.not_found
  ∧ Store.delete_todo 9 w = (Raise Store.not_found, w).
Proof.
  cbv zeta.
  destruct (delete_todo_contract 4 (Store.startup (λ _, 0)))
    as (Hiff & _ & _ & _ & Hgone).
  destruct (delete_todo_contract 9 (Store.startup (λ _, 0)))
    as (_ & _ & Hmissing & _).
  assert (4 ∈ Store.ids (Store.startup (λ _, 0))) as Hin
    by compute_done.
  destruct (Hgone (λ _, 0) []
              [ Store.PostTodo (TodoCreate.mk "A" None false) 1 2;
                Store.PostTodo (TodoCreate.mk "B" None false) 3 4 ] eq_refl Hin)
    as [Hnow Hlater].
  split; [by apply Hiff|]. split; [exact Hnow|]. split; [exact Hlater|].
  apply Hmissing. compute_done.
Defined.

(** ** A complete exchange *)

(** After start-up: create [{"title": "X"}], get it, set it completed,
    get it again, delete it, and ask for it once more. *)
Example create_update_delete_exchange :
  (Store.run [ Store.PostTodo (TodoCreate.mk "X" None false) 10 11;
               Store.GetTodo 6;
               Store.PutTodo 6 (TodoUpdate.mk None None (Some (Some true))) 12;
               Store.GetTodo 6;
               Store.DeleteTodo 6;
               Store.GetTodo 6 ]
             (Store.startup (λ k, Z.of_nat k))).1
  = [ Store.Item (Todo.mk 6 (Some "X") None (Some false) 10 11);
      Store.Item (Todo.mk 6 (Some "X") None (Some false) 10 11);
      Store.Item (Todo.mk 6 (Some "X") None (Some true) 10 12);
      Store.Item (Todo.mk 6 (Some "X") None (Some true) 10 12);
      Store.Message "Todo 'X' deleted successfully";
      Store.Failed Store.not_found ].
Proof. vm_compute. reflexivity. Qed.

(** ** Explicit [null] in an update body *)

Lemma optional_str_set (body : gmap string JValue) (key : string)
    (field : option (option string)) :
  Wire.optional_str body key = Some field →
  (body !! key = Some JNull → field = Some None)
  ∧ (body !! key = None → field = None)
  ∧ (∀ s, body !! key = Some (JStr s) → field = Some (Some s)).
Proof.
  unfold Wire.optional_str. destruct (body !! key) as [[]|]; intros [= <-]; naive_solver.
Qed.

Lemma optional_bool_set (body : gmap string JValue) (key : string)
    (field : option (option bool)) :
  Wire.optional_bool body key = Some field →
  (body !! key = Some JNull → field = Some None)
  ∧ (body !! key = None → field = None)
  ∧ (∀ b, body !! key = Some (JBool b) → field = Some (Some b)).
Proof.
  unfold Wire.optional_bool. destruct (body !! key) as [v|]; [|intros [= <-]; naive_solver].
  destruct v as [|b|z|f|s|l|m]; intros H; cbn in H;
    try (injection H as <-; naive_solver);
    repeat split; intros; discriminate.
Qed.

Lemma todo_update_of_json_fields (body : gmap string JValue) (u : TodoUpdate.t) :
  Wire.todo_update_of_json body = Some u →
  Wire.optional_str body "title" = Some (TodoUpdate.title u)
  ∧ Wire.optional_str body "description" = Some (TodoUpdate.description u)
  ∧ Wire.optional_bool body "completed" = Some (TodoUpdate.completed u).
Proof.
  unfold Wire.todo_update_of_json.
  destruct (Wire.optional_str body "title") as [title|]; [|done].
  destruct (Wire.optional_str body "description") as [description|]; [|done].
  destruct (Wire.optional_bool body "completed") as [completed|]; [|done].
  by intros [= <-].
Qed.

Lemma explicit_null_decodes (body : gmap string JValue) (key : string) :
  (body !! key = Some JNull →
   Wire.optional_str body key = Some (Some None)
   ∧ Wire.optional_bool body key = Some (Some None))
  ∧ (body !! key = None →
     Wire.optional_str body key = Some None ∧ Wire.optional_bool body key = Some None).
Proof.
  unfold Wire.optional_str, Wire.optional_bool. split; by intros ->.
Qed.

(** C10. In a [PUT] body a key that is present counts as set, also with
    the value [null]: a declared field whose key carries [null] decodes
    to "set to [None]" and one whose key is missing to "not set",
    whatever the other keys hold.  The handler assigns every set field:
    for an id the collection holds and for every decoded update, a
    field set to [None] leaves [None] in the stored item, a field set
    to a value leaves that value, and a field that is not set leaves
    the stored value as it was.  The stored item is the one a
    following get returns. *)
Theorem update_todo_explicit_null
    (u : TodoUpdate.t) (todo_id now : Z) (w : World) (old : Todo.t)
    (Hold : Store.get_todo todo_id w = Ok old) :
  (∀ body key,
     (body !! key = Some JNull →
      Wire.optional_str body key = Some (Some None)
      ∧ Wire.optional_bool body key = Some (Some None))
     ∧ (body !! key = None →
        Wire.optional_str body key = Some None ∧ Wire.optional_bool body key = Some None))
  ∧ ∃ new : Todo.t,
      (Store.update_todo todo_id u now w).1 = Ok new
      ∧ Store.get_todo todo_id (Store.update_todo todo_id u now w).2 = Ok new
      ∧ (TodoUpdate.title u = Some None → Todo.title new = None)
      ∧ (TodoUpdate.title u = None → Todo.title new = Todo.title old)
      ∧ (∀ v, TodoUpdate.title u = Some v → Todo.title new = v)
      ∧ (TodoUpdate.description u = Some None → Todo.description new = None)
      ∧ (TodoUpdate.description u = None → Todo.description new = Todo.description old)
      ∧ (∀ v, TodoUpdate.description u = Some v → Todo.description new = v)
      ∧ (TodoUpdate.completed u = Some None → Todo.completed new = None)
      ∧ (TodoUpdate.completed u = None → Todo.completed new = Todo.completed old)
      ∧ (∀ v, TodoUpdate.completed u = Some v → Todo.completed new = v)
      ∧ (∀ body,
           Wire.todo_update_of_json body = Some u →
           (body !! "title" = Some JNull → Todo.title new = None)
           ∧ (body !! "title" = None → Todo.title new = Todo.title old)
           ∧ (body !! "description" = Some JNull → Todo.description new = None)
           ∧ (body !! "description" = None → Todo.description new = Todo.description old)
           ∧ (body !! "completed" = Some JNull → Todo.completed new = None)
           ∧ (body !! "completed" = None → Todo.completed new = Todo.completed old)).
Proof.
  split; [exact explicit_null_decodes|].
  apply get_todo_Ok in Hold as (j & Hscan).
  destruct (update_todo_found todo_id u now w j old Hscan) as (Hupd & _ & _ & Hscan').
  destruct (setattr_all_fields old u) as (Htitle & Hdescr & Hcompl).
  eexists. rewrite Hupd. cbn [fst snd]. split; [done|].
  split; [apply get_todo_Ok; by exists j|].
  cbn [Store.touch Todo.title Todo.description Todo.completed].
  rewrite Htitle, Hdescr, Hcompl.
  split; [by intros ->|]. split; [by intros ->|]. split; [by intros v ->|].
  split; [by intros ->|]. split; [by intros ->|]. split; [by intros v ->|].
  split; [by intros ->|]. split; [by intros ->|]. split; [by intros v ->|].
  intros body Hbody.
  destruct (todo_update_of_json_fields body u Hbody) as (Ht & Hd & Hc).
  apply optional_str_set in Ht as (Ht1 & Ht2 & _).
  apply optional_str_set in Hd as (Hd1 & Hd2 & _).
  apply optional_bool_set in Hc as (Hc1 & Hc2 & _).
  repeat split; intros H.
  - by rewrite (Ht1 H).
  - by rewrite (Ht2 H).
  - by rewrite (Hd1 H).
  - by rewrite (Hd2 H).
  - by rewrite (Hc1 H).
  - by rewrite (Hc2 H).
Qed.

(** A body that sets [title] to [null] next to a [completed] written as
    a word. *)
Example explicit_null_beside_a_word :
  Wire.todo_update_of_json {[ "title" := JNull; "completed" := JStr "yes" ]}
  = Some (TodoUpdate.mk (Some None) None (Some (Some true))).
Proof. vm_compute. reflexivity. Qed.

(** On the seeded collection: [PUT /todos/1] with the body
    [{"title": null, "completed": "yes"}]. *)
Lemma update_todo_explicit_null_seeded :
  ∃ new : Todo.t,
    (Store.update_todo 1 (TodoUpdate.mk (Some None) None (Some (Some true))) 50
       (Store.startup (λ _, 0))).1 = Ok new
    ∧ Store.get_todo 1
        (Store.update_todo 1 (TodoUpdate.mk (Some None) None (Some (Some true))) 50
           (Store.startup (λ _, 0))).2 = Ok new
    ∧ Todo.title new = None
    ∧ Todo.description new = Some "Complete FastAPI tutorial"
    ∧ Todo.completed new = Some true.
Proof.
  assert (Store.get_todo 1 (Store.startup (λ _, 0))
          = Ok (Todo.mk 1 (Some "Learn FastAPI") (Some "Complete FastAPI tutorial")
                        (Some false) 0 0)) as Hold
    by (vm_compute; reflexivity).
  destruct (update_todo_explicit_null
              (TodoUpdate.mk (Some None) None (Some (Some true))) 1 50 _ _ Hold)
    as (_ & new & Hnew & Hget & Htitle & _ & _ & _ & Hdescr & _ & _ & _ & Hcompl & _).
  exists new. split; [exact Hnew|]. split; [exact Hget|].
  split; [by apply Htitle|]. split; [by apply Hdescr|]. by apply Hcompl.
Defined.

(** * Properties of the adapters *)

(** ** The payload of [update_todo] *)

Lemma is_none_false (v : JValue) : is_none v = false ↔ v ≠ JNull.
Proof. destruct v; cbn; split; congruence. Qed.

Lemma update_data_lookup (arguments : gmap string JValue) (key : string) (value : JValue) :
  TodoMCPServer.update_data arguments !! key = Some value
  ↔ arguments !! key = Some value ∧ key ≠ "id" ∧ value ≠ JNull.
Proof.
  unfold TodoMCPServer.update_data. rewrite map_lookup_filter_Some. cbn.
  by rewrite is_none_false.
Qed.

Lemma update_data_only_null (todo_id : JValue) :
  TodoMCPServer.update_data {[ "id" := todo_id; "description" := JNull ]} = ∅.
Proof.
  apply map_empty. intros key. apply eq_None_not_Some. intros [value Hvalue].
  apply update_data_lookup in Hvalue as (Hlookup & Hkey & Hvalue).
  rewrite lookup_insert_ne in Hlookup by done.
  apply lookup_singleton_Some in Hlookup as [_ <-]. done.
Qed.

Lemma standalone_update_data_lookup (title description : option string)
    (completed : option bool) :
  McpServer.update_data title description completed !! "title" = JStr <$> title
  ∧ McpServer.update_data title description completed !! "description" = JStr <$> description
  ∧ McpServer.update_data title description completed !! "completed" = JBool <$> completed
  ∧ (∀ key, key ≠ "title" → key ≠ "description" → key ≠ "completed" →
       McpServer.update_data title description completed !! key = None).
Proof.
  unfold McpServer.update_data.
  destruct title, description, completed; cbn; repeat split;
    try (intros key ? ? ?); by simplify_map_eq.
Qed.

(** An update whose decoded body does not set a field leaves that field
    of the stored item as it was. *)
Lemma update_todo_unset_fields (u : TodoUpdate.t) (todo_id now : Z) (w : World) (old : Todo.t) :
  Store.get_todo todo_id w = Ok old →
  ∃ new : Todo.t,
    (Store.update_todo todo_id u now w).1 = Ok new
    ∧ Store.get_todo todo_id (Store.update_todo todo_id u now w).2 = Ok new
    ∧ (TodoUpdate.title u = None → Todo.title new = Todo.title old)
    ∧ (TodoUpdate.description u = None → Todo.description new = Todo.description old)
    ∧ (TodoUpdate.completed u = None → Todo.completed new = Todo.completed old).
Proof.
  intros (j & Hscan)%get_todo_Ok.
  destruct (update_todo_found todo_id u now w j old Hscan) as (Hupd & _ & _ & Hscan').
  destruct (setattr_all_fields old u) as (Htitle & Hdescr & Hcompl).
  eexists. rewrite Hupd. cbn [fst snd]. split; [done|].
  split; [apply get_todo_Ok; by exists j|].
  cbn [Store.touch Todo.title Todo.description Todo.completed].
  rewrite Htitle, Hdescr, Hcompl. repeat split; by intros ->.
Qed.

(** C6. Both adapters forward, as body of the [PUT] request, exactly
    the arguments that are present and not [None]: the embedded one
    keeps every entry of [arguments] other than [id] whose value is not
    [None], the standalone one adds each of [title], [description] and
    [completed] only when it is not [None].  Each tool makes one [PUT]
    request to the URL of the id with that payload as JSON body: its
    result depends on the client only through that request, a server
    that repeats what it receives gets the URL and the payload back in
    the tool's text, and an unreachable server makes the tool fail
    with the connection error.  For the arguments
    [{id, description: null}] the payload is empty, it decodes to an
    update that sets no field, and the store's update then leaves the
    stored description (and title and completed) as they were. *)
Theorem update_payload_contract :
  (∀ arguments key value,
     TodoMCPServer.update_data arguments !! key = Some value
     ↔ arguments !! key = Some value ∧ key ≠ "id" ∧ value ≠ JNull)
  ∧ (∀ client1 client2 message repr arguments todo_id,
       arguments !! "id" = Some todo_id →
       Client.put client1 ("http://localhost:8001" +:+ "/todos/" +:+ str repr todo_id)
                  (Some (TodoMCPServer.update_data arguments))
       = Client.put client2 ("http://localhost:8001" +:+ "/todos/" +:+ str repr todo_id)
                    (Some (TodoMCPServer.update_data arguments)) →
       TodoMCPServer._update_todo client1 message repr arguments
       = TodoMCPServer._update_todo client2 message repr arguments)
  ∧ (∀ title description completed,
       McpServer.update_data title description completed !! "title" = JStr <$> title
       ∧ McpServer.update_data title description completed !! "description"
         = JStr <$> description
       ∧ McpServer.update_data title description completed !! "completed"
         = JBool <$> completed
       ∧ (∀ key, key ≠ "title" → key ≠ "description" → key ≠ "completed" →
            McpServer.update_data title description completed !! key = None))
  ∧ (∀ client1 client2 message repr todo_id title description completed,
       Client.put client1 ("http://localhost:8001" +:+ "/todos/" +:+ str_int todo_id)
                  (Some (McpServer.update_data title description completed))
       = Client.put client2 ("http://localhost:8001" +:+ "/todos/" +:+ str_int todo_id)
                    (Some (McpServer.update_data title description completed)) →
       McpServer.update_todo client1 message repr todo_id title description completed
       = McpServer.update_todo client2 message repr todo_id title description completed)
  ∧ (∀ todo_id,
       TodoMCPServer.update_data {[ "id" := todo_id; "description" := JNull ]} = ∅)
  ∧ McpServer.update_data None None None = ∅
  ∧ Wire.todo_update_of_json ∅ = Some (TodoUpdate.mk None None None)
  ∧ (∀ todo_id now w old,
       Store.get_todo todo_id w = Ok old →
       ∃ u new,
         Wire.todo_update_of_json
           (TodoMCPServer.update_data {[ "id" := JInt todo_id; "description" := JNull ]})
         = Some u
         ∧ (Store.update_todo todo_id u now w).1 = Ok new
         ∧ Store.get_todo todo_id (Store.update_todo todo_id u now w).2 = Ok new
         ∧ Todo.description new = Todo.description old
         ∧ Todo.title new = Todo.title old
         ∧ Todo.completed new = Todo.completed old)
  ∧ (∀ raw message repr arguments todo_id,
       arguments !! "id" = Some todo_id →
       TodoMCPServer._update_todo (reflecting raw) message repr arguments
       = Ok (TodoMCPServer.text_result
               ("Updated todo: " +:+ "http://localhost:8001/todos/" +:+ str repr todo_id
                +:+ " (ID: " +:+ repr (JObj (TodoMCPServer.update_data arguments))
                +:+ ")")))
  ∧ (∀ raw message repr todo_id title description completed,
       McpServer.update_todo (reflecting raw) message repr todo_id title description
         completed
       = Ok ("Updated todo: " +:+ "http://localhost:8001/todos/" +:+ str_int todo_id
             +:+ " (ID: "
             +:+ repr (JObj (McpServer.update_data title description completed))
             +:+ ")"))
  ∧ (∀ raw message repr todo_id,
       TodoMCPServer._update_todo (reflecting raw) message repr
         {[ "id" := JInt todo_id; "description" := JNull ]}
       = Ok (TodoMCPServer.text_result
               ("Updated todo: " +:+ "http://localhost:8001/todos/" +:+ str_int todo_id
                +:+ " (ID: " +:+ repr (JObj ∅) +:+ ")"))
       ∧ McpServer.update_todo (reflecting raw) message repr todo_id None None None
         = Ok ("Updated todo: " +:+ "http://localhost:8001/todos/" +:+ str_int todo_id
               +:+ " (ID: " +:+ repr (JObj ∅) +:+ ")"))
  ∧ (∀ msg message repr arguments todo_id,
       arguments !! "id" = Some todo_id →
       TodoMCPServer._update_todo (unreachable msg) message repr arguments
       = Raise (ConnectError msg))
  ∧ (∀ msg message repr todo_id title description completed,
       McpServer.update_todo (unreachable msg) message repr todo_id title description
         completed
       = Raise (PlainException
                  "Cannot connect to FastAPI server. Make sure it's running on http://localhost:8001"))
  ∧ (∀ client message repr arguments,
       arguments !! "id" = None →
       TodoMCPServer._update_todo client message repr arguments = Raise (KeyError "id")).
Proof.
  assert (∀ raw message repr arguments todo_id,
            arguments !! "id" = Some todo_id →
            TodoMCPServer._update_todo (reflecting raw) message repr arguments
            = Ok (TodoMCPServer.text_result
                    ("Updated todo: " +:+ "http://localhost:8001/todos/"
                     +:+ str repr todo_id +:+ " (ID: "
                     +:+ repr (JObj (TodoMCPServer.update_data arguments)) +:+ ")")))
    as Hreflected.
  { intros raw message repr arguments todo_id Hid.
    unfold TodoMCPServer._update_todo, dict_getitem. rewrite Hid. cbn [mbind result_bind].
    unfold TodoMCPServer._make_request. cbn [String.eqb Ascii.eqb Bool.eqb].
    cbn. unfold dict_getitem. by simplify_map_eq. }
  assert (∀ raw message repr todo_id title description completed,
            McpServer.update_todo (reflecting raw) message repr todo_id title description
              completed
            = Ok ("Updated todo: " +:+ "http://localhost:8001/todos/" +:+ str_int todo_id
                  +:+ " (ID: "
                  +:+ repr (JObj (McpServer.update_data title description completed))
                  +:+ ")")) as Hreflected'.
  { intros raw message repr todo_id title description completed.
    unfold McpServer.update_todo, McpServer.make_request, McpServer.request,
      McpServer.FASTAPI_URL.
    cbn [String.eqb Ascii.eqb Bool.eqb]. cbn. unfold dict_getitem. by simplify_map_eq. }
  split; [exact update_data_lookup|]. split.
  { intros client1 client2 message repr arguments todo_id Hid Hput.
    unfold TodoMCPServer._update_todo, dict_getitem. rewrite Hid. cbn [mbind result_bind].
    unfold TodoMCPServer._make_request. cbn [String.eqb Ascii.eqb Bool.eqb].
    by rewrite Hput. }
  split; [exact standalone_update_data_lookup|]. split.
  { intros client1 client2 message repr todo_id title description completed Hput.
    unfold McpServer.update_todo, McpServer.make_request, McpServer.request,
      McpServer.FASTAPI_URL.
    cbn [String.eqb Ascii.eqb Bool.eqb]. by rewrite Hput. }
  split; [exact update_data_only_null|]. split; [done|]. split; [done|].
  split.
  { intros todo_id now w old Hold.
    rewrite update_data_only_null.
    destruct (update_todo_unset_fields (TodoUpdate.mk None None None) todo_id now w old
                Hold) as (new & Hnew & Hget & Htitle & Hdescr & Hcompl).
    exists (TodoUpdate.mk None None None), new.
    split; [done|]. split; [done|]. split; [done|].
    split; [by apply Hdescr|]. split; [by apply Htitle|by apply Hcompl]. }
  split; [exact Hreflected|]. split; [exact Hreflected'|]. split.
  { intros raw message repr todo_id. split.
    - rewrite (Hreflected raw message repr _ (JInt todo_id)) by done.
      by rewrite update_data_only_null.
    - by rewrite Hreflected'. }
  split.
  { intros msg message repr arguments todo_id Hid.
    unfold TodoMCPServer._update_todo, dict_getitem. by rewrite Hid. }
  split; [done|].
  intros client message repr arguments Hid.
  unfold TodoMCPServer._update_todo, dict_getitem. by rewrite Hid.
Qed.

(** On the seeded collection: the payload for [{id: 1, description:
    null}] leaves the description of item 1 in place. *)
Lemma update_payload_after_startup :
  ∃ u new,
    Wire.todo_update_of_json
      (TodoMCPServer.update_data {[ "id" := JInt 1; "description" := JNull ]}) = Some u
    ∧ (Store.update_todo 1 u 50 (Store.startup (λ _, 0))).1 = Ok new
    ∧ Todo.description new = Some "Complete FastAPI tutorial".
Proof.
  destruct update_payload_contract as (_ & _ & _ & _ & _ & _ & _ & Hkept & _).
  destruct (Hkept 1 50 (Store.startup (λ _, 0))
              (Todo.mk 1 (Some "Learn FastAPI") (Some "Complete FastAPI tutorial")
                       (Some false) 0 0))
    as (u & new & Hdecode & Hupdate & _ & Hdescription & _);
    [vm_compute; reflexivity|].
  exists u, new. split; [exact Hdecode|]. split; [exact Hupdate|]. exact Hdescription.
Defined.

(** ** Tool calls always end in a text block *)

Ltac text_or_raises :=
  unfold TodoMCPServer.text_or_raises, mbind, result_bind;
  repeat case_match; simplify_eq; eauto.

Lemma _get_todos_text client message repr :
  TodoMCPServer.text_or_raises (TodoMCPServer._get_todos client message repr).
Proof. unfold TodoMCPServer._get_todos. text_or_raises. Qed.

Lemma _get_todo_stats_text client message repr :
  TodoMCPServer.text_or_raises (TodoMCPServer._get_todo_stats client message repr).
Proof. unfold TodoMCPServer._get_todo_stats. text_or_raises. Qed.

Lemma _create_todo_text client message repr arguments :
  TodoMCPServer.text_or_raises (TodoMCPServer._create_todo client message repr arguments).
Proof. unfold TodoMCPServer._create_todo. text_or_raises. Qed.

Lemma _update_todo_text client message repr arguments :
  TodoMCPServer.text_or_raises (TodoMCPServer._update_todo client message repr arguments).
Proof. unfold TodoMCPServer._update_todo. text_or_raises. Qed.

Lemma _delete_todo_text client message repr validation arguments :
  TodoMCPServer.text_or_raises
    (TodoMCPServer._delete_todo client message repr validation arguments).
Proof. unfold TodoMCPServer._delete_todo. text_or_raises. Qed.

Lemma _get_todo_by_id_text client message repr arguments :
  TodoMCPServer.text_or_raises (TodoMCPServer._get_todo_by_id client message repr arguments).
Proof. unfold TodoMCPServer._get_todo_by_id. text_or_raises. Qed.

Lemma dispatch_text client message repr validation name arguments :
  TodoMCPServer.text_or_raises
    (TodoMCPServer.dispatch client message repr validation name arguments).
Proof.
  unfold TodoMCPServer.dispatch.
  repeat case_match;
    eauto using _get_todos_text, _get_todo_stats_text, _create_todo_text,
      _update_todo_text, _delete_todo_text, _get_todo_by_id_text.
  cbn. eauto.
Qed.

Lemma dispatch_unknown client message repr validation name arguments :
  name ∉ TodoMCPServer.tool_names →
  TodoMCPServer.dispatch client message repr validation name arguments
  = Ok (TodoMCPServer.text_result ("Unknown tool: " +:+ name)).
Proof.
  unfold TodoMCPServer.tool_names, TodoMCPServer.dispatch. intros Hname.
  repeat (case_match; [exfalso; apply Hname;
                       match goal with H : String.eqb _ _ = true |- _ =>
                         apply String.eqb_eq in H; subst end; set_solver|]).
  done.
Qed.

Lemma append_empty_r (s : string) : s +:+ EmptyString = s.
Proof.
  induction s as [|c s IH]; [done|].
  change (String c s +:+ EmptyString) with (String c (s +:+ EmptyString)). by rewrite IH.
Qed.

Lemma contains_suffix (before s : string) : contains s (before +:+ s) = true.
Proof. rewrite <- (append_empty_r s) at 2. apply contains_middle. Qed.

(** C7. [handle_call_tool] returns a result made of one text block for
    every tool name, every argument dictionary and every behaviour of
    the HTTP client.  For a name that is not one of the six declared
    tools the text is [Unknown tool: <name>], which contains the name.
    When the selected tool raises an exception [e], the result is the
    text [Error: <str(e)>], which contains the message of [e]; when it
    returns, the result is what it returned. *)
Theorem handle_call_tool_contract
    (client : Client.t) (message : Z → string → string) (repr : JValue → string)
    (validation : JValue → string) (name : string) (arguments : gmap string JValue) :
  let call := TodoMCPServer.handle_call_tool client message repr validation in
  let tool := TodoMCPServer.dispatch client message repr validation in
  (∃ s, call name arguments
        = TodoMCPServer.mkCallToolResult [TodoMCPServer.mkTextContent "text" s])
  ∧ (name ∉ TodoMCPServer.tool_names →
       call name arguments = TodoMCPServer.text_result ("Unknown tool: " +:+ name)
       ∧ contains name ("Unknown tool: " +:+ name) = true)
  ∧ (∀ e, tool name arguments = Raise e →
       call name arguments = TodoMCPServer.text_result ("Error: " +:+ str_exception e)
       ∧ contains (str_exception e) ("Error: " +:+ str_exception e) = true)
  ∧ (∀ result, tool name arguments = Ok result → call name arguments = result).
Proof.
  cbv zeta. unfold TodoMCPServer.handle_call_tool.
  pose proof (dispatch_text client message repr validation name arguments) as Htext.
  split; [|split; [|split]].
  - destruct (TodoMCPServer.dispatch _ _ _ _ _ _) as [result|e]; [|by eauto].
    destruct Htext as [s ->]. by exists s.
  - intros Hname. rewrite dispatch_unknown by done. split; [done|apply contains_suffix].
  - intros e ->. split; [done|apply contains_suffix].
  - by intros result ->.
Qed.

(** With the store down: an unregistered name, and a registered tool
    whose request fails. *)
Lemma handle_call_tool_store_down :
  let call := TodoMCPServer.handle_call_tool
                (unreachable "All connection attempts failed")
                (λ _ _, EmptyString) (λ _, EmptyString) (λ _, EmptyString) in
  call "list_todos" ∅ = TodoMCPServer.text_result "Unknown tool: list_todos"
  ∧ call "get_todos" ∅ = TodoMCPServer.text_result "Error: All connection attempts failed".
Proof.
  cbv zeta. split.
  - destruct (handle_call_tool_contract
                (unreachable "All connection attempts failed")
                (λ _ _, EmptyString) (λ _, EmptyString) (λ _, EmptyString)
                "list_todos" ∅) as (_ & Hunknown & _).
    apply Hunknown. compute_done.
  - destruct (handle_call_tool_contract
                (unreachable "All connection attempts failed")
                (λ _ _, EmptyString) (λ _, EmptyString) (λ _, EmptyString)
                "get_todos" ∅) as (_ & _ & Hraise & _).
    apply (Hraise (ConnectError "All connection attempts failed")). reflexivity.
Defined.

(** A registered tool that fails before any request is sent: the
    [KeyError] of [arguments["id"]] comes back as text. *)
Example delete_without_id (client : Client.t) message repr validation :
  TodoMCPServer.handle_call_tool client message repr validation "delete_todo" ∅
  = TodoMCPServer.text_result "Error: 'id'".
Proof. reflexivity. Qed.

(** ** Rendering the list of todos *)

(** The line of an item that has the three keys read by subscript: the
    placeholder stands in only when the [description] key is missing
    from the dictionary. *)
Lemma todo_line_object (repr : JValue → string) (d : gmap string JValue)
    (id title completed : JValue) :
  d !! "id" = Some id → d !! "title" = Some title → d !! "completed" = Some completed →
  TodoMCPServer.todo_line repr (JObj d)
  = Ok ("ID: " +:+ str repr id +:+ " | " +:+ str repr title +:+ " | "
        +:+ (if truthy completed
             then TodoMCPServer.done_glyph else TodoMCPServer.pending_glyph)
        +:+ " | " +:+ str repr (default (JStr "No description") (d !! "description"))).
Proof.
  intros Hid Htitle Hcompleted. unfold TodoMCPServer.todo_line. cbn [getitem get_or].
  unfold dict_getitem. by rewrite Hid, Htitle, Hcompleted.
Qed.

(** What the store service sends for an item always has the
    [description] key, with [null] for an item without description. *)
Lemma todo_json_description (isoformat : Z → string) (todo : Todo.t) (doc : JValue) :
  Wire.todo_json isoformat todo = Some doc →
  ∃ d, doc = JObj d
       ∧ d !! "description" = Some (from_option JStr JNull (Todo.description todo)).
Proof.
  unfold Wire.todo_json, Wire.todo_doc.
  intros [= <-]. eexists. split; [done|]. by simplify_map_eq.
Qed.

(** C8, evaluated.  After start-up a todo is created from the body
    [{"title": "X"}]; [GET /todos] then answers with six items, the
    last one with ["description": null], and both adapters render that
    item with the text [None] where the description goes. *)
Theorem get_todos_renders_null_description
    (isoformat : Z → string) (message : Z → string → string)
    (repr validation : JValue → string) (raw : string) :
  let w := (Store.create_todo (TodoCreate.mk "X" None false) 1000 1001
              (Store.startup (λ _, 0))).2 in
  ∃ doc : JValue,
    Wire.todos_json isoformat w = Some doc
    ∧ TodoMCPServer.handle_call_tool (answering (Response.mk 200 raw (Ok doc)))
        message repr validation "get_todos" ∅
      = TodoMCPServer.text_result
          ("All Todos:" +:+ nl
           +:+ "ID: 1 | Learn FastAPI | ⏳ | Complete FastAPI tutorial" +:+ nl
           +:+ "ID: 2 | Build MCP Server | ⏳ | Create MCP server for Gemini CLI" +:+ nl
           +:+ "ID: 3 | Test Integration | ⏳ | Test FastAPI with MCP server" +:+ nl
           +:+ "ID: 4 | Deploy Application | ✅ | Deploy to production" +:+ nl
           +:+ "ID: 5 | Write Documentation | ⏳ | Create API documentation" +:+ nl
           +:+ "ID: 6 | X | ⏳ | None")
    ∧ McpServer.get_todos (answering (Response.mk 200 raw (Ok doc))) message repr
      = Ok ("All Todos:" +:+ nl
            +:+ "ID: 1 | Learn FastAPI | â³ | Complete FastAPI tutorial" +:+ nl
            +:+ "ID: 2 | Build MCP Server | â³ | Create MCP server for Gemini CLI" +:+ nl
            +:+ "ID: 3 | Test Integration | â³ | Test FastAPI with MCP server" +:+ nl
            +:+ "ID: 4 | Deploy Application | âœ… | Deploy to production" +:+ nl
            +:+ "ID: 5 | Write Documentation | â³ | Create API documentation" +:+ nl
            +:+ "ID: 6 | X | â³ | None").
Proof.
  cbv zeta. eexists. split; [vm_compute; reflexivity|].
  split; vm_compute; reflexivity.
Qed.

(** ** Failures of the HTTP call *)

(** The standalone adapter rewrites both failures: a connection failure
    becomes a text that names the address, a status error a text with
    the status code and the response body. *)
Lemma standalone_make_request_errors
    (message : Z → string → string) (method endpoint : string)
    (data : option (gmap string JValue)) :
  method ∈ ["GET"; "POST"; "PUT"; "DELETE"] →
  (∀ msg,
     McpServer.make_request (unreachable msg) message method endpoint data
     = Raise (PlainException
                "Cannot connect to FastAPI server. Make sure it's running on http://localhost:8001"))
  ∧ (∀ response,
       is_success response = false →
       McpServer.make_request (answering response) message method endpoint data
       = Raise (PlainException
                  ("HTTP error: " +:+ str_int (Response.status_code response)
                   +:+ " - " +:+ Response.text response)))
  ∧ contains McpServer.FASTAPI_URL
      "Cannot connect to FastAPI server. Make sure it's running on http://localhost:8001"
    = true.
Proof.
  intros Hmethod. split; [|split; [|by vm_compute]].
  - intros msg. unfold McpServer.make_request, McpServer.request.
    repeat (apply elem_of_cons in Hmethod as [->|Hmethod]; [done|]).
    by apply elem_of_nil in Hmethod.
  - intros response Hfail. unfold McpServer.make_request, McpServer.request.
    repeat (apply elem_of_cons in Hmethod as [->|Hmethod];
            [cbn; unfold raise_for_status; by rewrite Hfail|]).
    by apply elem_of_nil in Hmethod.
Qed.

(** C9, evaluated on the embedded adapter.  When the client cannot
    connect, the text is [Error: ] followed by the client's own
    message, and the address appears in it only if the client put it
    there (the message [All connection attempts failed] does not);
    when the store answers 404, the text is [Error: ] followed by the
    message of the status error, whatever the response body is.  On
    the same client behaviour the standalone adapter names the address,
    respectively the status code and the body. *)
Theorem embedded_adapter_error_text
    (message : Z → string → string) (repr validation : JValue → string) :
  (∀ msg,
     TodoMCPServer.handle_call_tool (unreachable msg) message repr validation
       "get_todos" ∅
     = TodoMCPServer.text_result ("Error: " +:+ msg)
     ∧ McpServer.get_todos (unreachable msg) message repr
       = Raise (PlainException
                  "Cannot connect to FastAPI server. Make sure it's running on http://localhost:8001"))
  ∧ contains "localhost:8001" ("Error: " +:+ "All connection attempts failed") = false
  ∧ (∀ raw json,
       TodoMCPServer.handle_call_tool (answering (Response.mk 404 raw json))
         message repr validation "get_todo_by_id" {[ "id" := JInt 99 ]}
       = TodoMCPServer.text_result
           ("Error: " +:+ message 404 "http://localhost:8001/todos/99")
       ∧ McpServer.get_todo_by_id (answering (Response.mk 404 raw json)) message repr 99
         = Raise (PlainException ("HTTP error: 404 - " +:+ raw))).
Proof.
  split; [|split].
  - intros msg. split; reflexivity.
  - vm_compute. reflexivity.
  - intros raw json. split; vm_compute; reflexivity.
Qed.

(** * Further properties of the store service *)

(** ** The order of the collection *)

Lemma handle_ids (req : Store.Request) (w : World) :
  Store.ids (Store.handle req w).2 = Store.ids w
  ∨ (Store.is_post req = true ∧ Store.ids (Store.handle req w).2 = Store.ids w ++ [next_id w])
  ∨ (∃ j, Store.ids (Store.handle req w).2 = delete j (Store.ids w)).
Proof.
  destruct req as [| |todo_id|body now1 now2|todo_id body now|todo_id];
    cbn [Store.handle snd]; try by left.
  - right; left. split; [done|]. unfold Store.ids. cbn. by rewrite fmap_app.
  - destruct (Store.scan todo_id 0 (todos_db w)) as [[j old]|] eqn:Hscan.
    + destruct (update_todo_found todo_id body now w j old Hscan) as (-> & _ & Hids & _).
      by left.
    + rewrite update_todo_missing by done. by left.
  - destruct (Store.scan todo_id 0 (todos_db w)) as [[j old]|] eqn:Hscan.
    + rewrite (delete_todo_found _ _ _ _ Hscan). right; right. exists j.
      unfold Store.ids. cbn. by rewrite list_fmap_delete.
    + rewrite delete_todo_missing by done. by left.
Qed.

Lemma increasing_delete (l : list Z) (j : nat) :
  StronglySorted Z.lt l → StronglySorted Z.lt (delete j l).
Proof.
  intros Hsorted. revert j. induction Hsorted as [|x l Hl IH Hall]; intros j.
  - destruct j; constructor.
  - destruct j as [|j]; cbn; [done|]. constructor; [apply IH|by apply Forall_delete].
Qed.

Lemma handle_increasing (req : Store.Request) (w : World) :
  1 ≤ next_id w ∧ StronglySorted Z.lt (Store.ids w)
  ∧ Forall (λ i, 1 ≤ i < next_id w) (Store.ids w) →
  1 ≤ next_id (Store.handle req w).2
  ∧ StronglySorted Z.lt (Store.ids (Store.handle req w).2)
  ∧ Forall (λ i, 1 ≤ i < next_id (Store.handle req w).2) (Store.ids (Store.handle req w).2).
Proof.
  intros (Hcounter & Hsorted & Hrange).
  pose proof (handle_next_id req w) as Hnext.
  assert (Forall (λ i, 1 ≤ i < next_id (Store.handle req w).2) (Store.ids w)) as Hrange'.
  { eapply Forall_impl; [exact Hrange|]. cbn. intros i Hi. rewrite Hnext.
    destruct (Store.is_post req); lia. }
  split; [rewrite Hnext; destruct (Store.is_post req); lia|].
  destruct (handle_ids req w) as [->|[[Hpost ->]|[j ->]]].
  - done.
  - rewrite Hpost in Hnext. split.
    + apply StronglySorted_app_2; [|done|repeat constructor].
      intros i k Hi ->%list_elem_of_singleton.
      rewrite Forall_forall in Hrange. specialize (Hrange _ Hi). lia.
    + apply Forall_app. split; [done|]. repeat constructor; lia.
  - split; [by apply increasing_delete|by apply Forall_delete].
Qed.

(** X1. In every state reached from start-up the collection is listed in
    strictly increasing order of id, which is the order of creation,
    and every id lies between 1 and the counter. *)
Theorem collection_in_creation_order (clock : nat → Z) (reqs : list Store.Request) :
  let w := (Store.run reqs (Store.startup clock)).2 in
  StronglySorted Z.lt (Store.ids w)
  ∧ Forall (λ i, 1 ≤ i < next_id w) (Store.ids w).
Proof.
  cbv zeta.
  assert (∀ w, 1 ≤ next_id w ∧ StronglySorted Z.lt (Store.ids w)
               ∧ Forall (λ i, 1 ≤ i < next_id w) (Store.ids w) →
               1 ≤ next_id (Store.run reqs w).2
               ∧ StronglySorted Z.lt (Store.ids (Store.run reqs w).2)
               ∧ Forall (λ i, 1 ≤ i < next_id (Store.run reqs w).2)
                        (Store.ids (Store.run reqs w).2)) as Hrun.
  { induction reqs as [|req reqs IH]; intros w Hw; [done|].
    rewrite run_cons. cbn [snd]. by apply IH, handle_increasing. }
  apply Hrun. cbn. split; [lia|]. split; repeat constructor; lia.
Qed.

(** ** List-all and get-by-id agree *)

(** What [get_todo] returns is the first item of the collection with
    the id. *)
Lemma get_todo_head (todo_id : Z) (w : World) :
  Store.get_todo todo_id w
  = match head (filter (λ t, Todo.id t = todo_id) (todos_db w)) with
    | Some todo => Ok todo
    | None => Raise Store.not_found
    end.
Proof.
  unfold Store.get_todo. generalize 0%nat. induction (todos_db w) as [|t db IH]; intros i.
  - done.
  - cbn [Store.scan]. destruct (Z.eqb_spec (Todo.id t) todo_id) as [Heq|Hne].
    + by rewrite filter_cons_True.
    + rewrite filter_cons_False by done. apply IH.
Qed.

(** X2. In every state reached from start-up, the items that [GET /todos]
    lists are exactly the items that [GET /todos/{id}] returns for
    their ids. *)
Theorem list_and_get_agree (clock : nat → Z) (reqs : list Store.Request) (todo : Todo.t) :
  let w := (Store.run reqs (Store.startup clock)).2 in
  todo ∈ Store.get_todos w ↔ Store.get_todo (Todo.id todo) w = Ok todo.
Proof.
  cbv zeta. set (w := (Store.run reqs (Store.startup clock)).2).
  assert (NoDup (Store.ids w)) as Hnodup
    by apply (run_ids reqs _ (id_invariant_startup clock)).
  unfold Store.get_todos. split.
  - intros (j & Hj)%list_elem_of_lookup_1. apply get_todo_Ok. exists j.
    apply scan_Some. split; [done|]. split; [done|].
    apply Forall_forall. intros t (k & Hk)%list_elem_of_lookup_1 Hid.
    pose proof (lookup_lt_Some _ _ _ Hk) as Hlt. rewrite length_take in Hlt.
    rewrite lookup_take_lt in Hk by lia.
    assert (k = j); [|lia].
    apply (NoDup_lookup _ _ _ (Todo.id todo) Hnodup); unfold Store.ids;
      rewrite list_lookup_fmap; [rewrite Hk|rewrite Hj]; cbn; congruence.
  - intros (j & (Hj & _)%scan_Some)%get_todo_Ok. by eapply list_elem_of_lookup_2.
Qed.

(** ** Requests leave the other items alone *)

Lemma filter_insert_other (P : Todo.t → Prop) `{!∀ t, Decision (P t)}
    (db : list Todo.t) (j : nat) (old new : Todo.t) :
  db !! j = Some old → ¬ P old → ¬ P new →
  filter P (<[j := new]> db) = filter P db.
Proof.
  intros Hj Hold Hnew.
  rewrite insert_take_drop by (by eapply lookup_lt_Some).
  rewrite <- (take_drop_middle db j old Hj) at 3.
  rewrite !filter_app, !filter_cons_False by done. done.
Qed.

Lemma filter_delete_other (P : Todo.t → Prop) `{!∀ t, Decision (P t)}
    (db : list Todo.t) (j : nat) (old : Todo.t) :
  db !! j = Some old → ¬ P old →
  filter P (delete j db) = filter P db.
Proof.
  intros Hj Hold. rewrite delete_take_drop.
  rewrite <- (take_drop_middle db j old Hj) at 3.
  rewrite !filter_app, filter_cons_False by done. done.
Qed.

Lemma handle_world (req : Store.Request) (w : World) :
  (Store.handle req w).2
  = match req with
    | Store.PostTodo body now1 now2 => (Store.create_todo body now1 now2 w).2
    | Store.PutTodo todo_id body now => (Store.update_todo todo_id body now w).2
    | Store.DeleteTodo todo_id => (Store.delete_todo todo_id w).2
    | _ => w
    end.
Proof.
  destruct req as [| |id'|body now1 now2|id' body now|id']; cbn; try done.
  - by destruct (Store.update_todo id' body now w).
  - by destruct (Store.delete_todo id' w).
Qed.

Lemma create_todo_keeps (body : TodoCreate.t) (now1 now2 : Z) (w : World)
    (todo_id : Z) (todo : Todo.t) :
  Store.get_todo todo_id w = Ok todo →
  Store.get_todo todo_id (Store.create_todo body now1 now2 w).2 = Ok todo.
Proof.
  rewrite !get_todo_head. cbn [Store.create_todo snd Store.append_todo todos_db].
  rewrite filter_app. by destruct (filter _ (todos_db w)) as [|t l].
Qed.

Lemma update_todo_other (todo_id other : Z) (u : TodoUpdate.t) (now : Z) (w : World) :
  other ≠ todo_id →
  Store.get_todo other (Store.update_todo todo_id u now w).2 = Store.get_todo other w.
Proof.
  intros Hother.
  destruct (Store.scan todo_id 0 (todos_db w)) as [[j old]|] eqn:Hscan.
  - destruct (update_todo_found todo_id u now w j old Hscan) as (-> & Hid & _).
    apply scan_Some in Hscan as (Hj & Hidold & _).
    rewrite !get_todo_head. cbn [snd todos_db].
    rewrite (filter_insert_other _ _ _ old) by (done || congruence). done.
  - by rewrite update_todo_missing.
Qed.

Lemma delete_todo_other (todo_id other : Z) (w : World) :
  other ≠ todo_id →
  Store.get_todo other (Store.delete_todo todo_id w).2 = Store.get_todo other w.
Proof.
  intros Hother.
  destruct (Store.scan todo_id 0 (todos_db w)) as [[j old]|] eqn:Hscan.
  - rewrite (delete_todo_found _ _ _ _ Hscan).
    apply scan_Some in Hscan as (Hj & Hidold & _).
    rewrite !get_todo_head. cbn [snd todos_db].
    rewrite (filter_delete_other _ _ _ old) by (done || congruence). done.
  - by rewrite delete_todo_missing.
Qed.

(** X3. An update or a delete of one id changes nothing about what a get of
    any other id returns, and a create changes nothing about any item
    that a get could find before. *)
Theorem other_items_untouched (todo_id other : Z) (w : World) (Hother : other ≠ todo_id) :
  (∀ u now,
     Store.get_todo other (Store.update_todo todo_id u now w).2 = Store.get_todo other w)
  ∧ Store.get_todo other (Store.delete_todo todo_id w).2 = Store.get_todo other w
  ∧ (∀ body now1 now2 todo,
       Store.get_todo other w = Ok todo →
       Store.get_todo other (Store.create_todo body now1 now2 w).2 = Ok todo).
Proof.
  split; [|split].
  - intros u now. by apply update_todo_other.
  - by apply delete_todo_other.
  - intros body now1 now2 todo. apply create_todo_keeps.
Qed.

(** On the seeded collection: item 2 as seen before and after item 4 is
    updated or deleted. *)
Lemma other_items_untouched_seeded :
  let w := Store.startup (λ _, 0) in
  Store.get_todo 2 (Store.update_todo 4 (TodoUpdate.mk (Some None) None None) 9 w).2
  = Store.get_todo 2 w
  ∧ Store.get_todo 2 (Store.delete_todo 4 w).2 = Store.get_todo 2 w.
Proof.
  cbv zeta.
  destruct (other_items_untouched 4 2 (Store.startup (λ _, 0))) as (Hupdate & Hdelete & _);
    [lia|].
  split; [apply Hupdate|apply Hdelete].
Defined.

(** ** What stays of an item for as long as it lives *)

Lemma get_todo_in_ids (todo_id : Z) (w : World) (todo : Todo.t) :
  Store.get_todo todo_id w = Ok todo → todo_id ∈ Store.ids w ∧ Todo.id todo = todo_id.
Proof.
  intros (j & (Hj & Hid & _)%scan_Some)%get_todo_Ok. split; [|done].
  unfold Store.ids. rewrite <- Hid. apply list_elem_of_fmap_2.
  by eapply list_elem_of_lookup_2.
Qed.

Lemma handle_keeps_created_at (req : Store.Request) (todo_id : Z) (w : World) (old : Todo.t) :
  NoDup (Store.ids w) →
  Store.get_todo todo_id w = Ok old →
  (∃ new, Store.get_todo todo_id (Store.handle req w).2 = Ok new
          ∧ Todo.created_at new = Todo.created_at old)
  ∨ todo_id ∉ Store.ids (Store.handle req w).2.
Proof.
  intros Hnodup Hold. rewrite handle_world.
  destruct req as [| |id'|body now1 now2|id' body now|id']; try (left; by exists old).
  - left. exists old. split; [|done]. by apply create_todo_keeps.
  - destruct (decide (todo_id = id')) as [<-|Hne].
    + left. apply get_todo_Ok in Hold as (j & Hscan).
      destruct (update_todo_found todo_id body now w j old Hscan) as (-> & _ & _ & Hscan').
      eexists. split; [apply get_todo_Ok; by exists j|].
      cbn. by rewrite (proj1 (proj2 (setattr_all_id _ _))).
    + left. exists old. split; [|done].
      by rewrite update_todo_other.
  - destruct (decide (todo_id = id')) as [<-|Hne].
    + right. apply get_todo_Ok in Hold as (j & Hscan).
      rewrite (delete_todo_found _ _ _ _ Hscan). by eapply delete_removes_id.
    + left. exists old. split; [|done].
      by rewrite delete_todo_other.
Qed.

(** X4. Whatever requests are served, an item that can still be fetched
    under its id has the id and the [created_at] it had before. *)
Theorem created_at_never_changes
    (reqs : list Store.Request) (todo_id : Z) (w : World) (old new : Todo.t)
    (Hinv : Store.id_invariant w)
    (Hold : Store.get_todo todo_id w = Ok old)
    (Hnew : Store.get_todo todo_id (Store.run reqs w).2 = Ok new) :
  Todo.id new = Todo.id old ∧ Todo.created_at new = Todo.created_at old.
Proof.
  split.
  { apply get_todo_in_ids in Hold as [_ ->]. by apply get_todo_in_ids in Hnew as [_ ->]. }
  revert w old Hinv Hold Hnew.
  induction reqs as [|req reqs IH]; intros w old Hinv Hold Hnew.
  - cbn in Hnew. congruence.
  - rewrite run_cons in Hnew. cbn [snd] in Hnew.
    pose proof (handle_invariant req w Hinv) as Hinv1.
    destruct (handle_keeps_created_at req todo_id w old (proj1 Hinv) Hold)
      as [(mid & Hmid & <-)|Hgone].
    + by apply (IH (Store.handle req w).2 mid).
    + exfalso. apply get_todo_in_ids in Hnew as [Hin _]. revert Hin.
      apply run_absent; [|done].
      apply get_todo_in_ids in Hold as [Hin _].
      destruct Hinv as [_ Hbelow]. rewrite Forall_forall in Hbelow.
      specialize (Hbelow _ Hin). rewrite handle_next_id.
      destruct (Store.is_post req); lia.
Qed.

(** On the seeded collection: item 3 after a create, two updates of it
    and a delete of another item. *)
Lemma created_at_never_changes_seeded :
  ∃ new,
    Store.get_todo 3
      (Store.run [ Store.PostTodo (TodoCreate.mk "X" None false) 20 21;
                   Store.PutTodo 3 (TodoUpdate.mk (Some (Some "T")) None None) 22;
                   Store.DeleteTodo 1;
                   Store.PutTodo 3 (TodoUpdate.mk None None (Some (Some true))) 23 ]
                 (Store.startup (λ k, Z.of_nat k))).2 = Ok new
    ∧ Todo.id new = 3 ∧ Todo.created_at new = 4.
Proof.
  eexists. split; [vm_compute; reflexivity|].
  apply (created_at_never_changes
           [ Store.PostTodo (TodoCreate.mk "X" None false) 20 21;
             Store.PutTodo 3 (TodoUpdate.mk (Some (Some "T")) None None) 22;
             Store.DeleteTodo 1;
             Store.PutTodo 3 (TodoUpdate.mk None None (Some (Some true))) 23 ]
           3 (Store.startup (λ k, Z.of_nat k))
           (Todo.mk 3 (Some "Test Integration") (Some "Test FastAPI with MCP server")
                    (Some false) 4 5)).
  - apply id_invariant_startup.
  - vm_compute. reflexivity.
  - vm_compute. reflexivity.
Defined.

(** ** How requests compose *)

Lemma scan_appended (w : World) (todo : Todo.t) :
  Todo.id todo ∉ Store.ids w →
  Store.scan (Todo.id todo) 0 (todos_db w ++ [todo]) = Some (length (todos_db w), todo).
Proof.
  intros Hfresh. apply scan_Some.
  split; [by rewrite lookup_app_r, Nat.sub_diag|]. split; [done|].
  rewrite take_app_length. apply Forall_forall. intros t Ht Hid.
  apply Hfresh. rewrite <- Hid. by apply list_elem_of_fmap_2.
Qed.

(** X5. Deleting the item that a create has just returned gives back the
    collection as it was before the create; only the counter has moved
    on. *)
Theorem create_then_delete
    (body : TodoCreate.t) (now1 now2 : Z) (w : World) (Hinv : Store.id_invariant w) :
  let created := Store.create_todo body now1 now2 w in
  Store.delete_todo (Todo.id created.1) created.2
  = (Ok ("Todo '" +:+ TodoCreate.title body +:+ "' deleted successfully"),
     mkWorld (todos_db w) (next_id w + 1)).
Proof.
  cbv zeta. cbn [Store.create_todo fst snd].
  set (todo := Store.new_todo w body now1 now2).
  assert (Todo.id todo ∉ Store.ids w) as Hfresh.
  { destruct Hinv as [_ Hbelow]. intros Hin. rewrite Forall_forall in Hbelow.
    specialize (Hbelow _ Hin). cbn in Hbelow. lia. }
  rewrite (delete_todo_found _ _ (length (todos_db w)) todo)
    by (by apply scan_appended).
  cbn [Store.append_todo todos_db next_id].
  by rewrite delete_middle, app_nil_r.
Qed.

(** On the seeded collection. *)
Lemma create_then_delete_seeded :
  let w := Store.startup (λ _, 0) in
  Store.delete_todo 6 (Store.create_todo (TodoCreate.mk "X" None false) 1 2 w).2
  = (Ok "Todo 'X' deleted successfully", mkWorld (todos_db w) 7).
Proof.
  cbv zeta.
  exact (create_then_delete (TodoCreate.mk "X" None false) 1 2
           (Store.startup (λ _, 0)) (id_invariant_startup _)).
Defined.

Lemma setattr_merge (old : Todo.t) (earlier later : TodoUpdate.t) (now1 now2 : Z) :
  Store.touch
    (fold_left Store.setattr (Store.dict_exclude_unset later)
       (Store.touch (fold_left Store.setattr (Store.dict_exclude_unset earlier) old) now1))
    now2
  = Store.touch
      (fold_left Store.setattr (Store.dict_exclude_unset (Runs.merge earlier later)) old)
      now2.
Proof.
  destruct old, earlier as [[?|] [?|] [?|]], later as [[?|] [?|] [?|]]; reflexivity.
Qed.

(** X6. Two updates of the same id in a row give the response and the
    state of one update with the merged body at the later clock
    reading; in particular, sending the same body twice changes nothing
    but [updated_at]. *)
Theorem successive_updates_merge
    (todo_id : Z) (earlier later : TodoUpdate.t) (now1 now2 : Z) (w : World) :
  Store.update_todo todo_id later now2 (Store.update_todo todo_id earlier now1 w).2
  = Store.update_todo todo_id (Runs.merge earlier later) now2 w
  ∧ Store.update_todo todo_id earlier now2 (Store.update_todo todo_id earlier now1 w).2
    = Store.update_todo todo_id earlier now2 w.
Proof.
  assert (∀ u1 u2,
            Store.update_todo todo_id u2 now2 (Store.update_todo todo_id u1 now1 w).2
            = Store.update_todo todo_id (Runs.merge u1 u2) now2 w) as Hmerge.
  { intros u1 u2.
    destruct (Store.scan todo_id 0 (todos_db w)) as [[j old]|] eqn:Hscan.
    - destruct (update_todo_found todo_id u1 now1 w j old Hscan) as (-> & _ & _ & Hscan1).
      cbn [snd].
      destruct (update_todo_found todo_id u2 now2 (mkWorld _ (next_id w)) j _ Hscan1)
        as (-> & _).
      destruct (update_todo_found todo_id (Runs.merge u1 u2) now2 w j old Hscan) as (-> & _).
      cbn [todos_db next_id]. by rewrite list_insert_insert_eq, setattr_merge.
    - rewrite (update_todo_missing todo_id u1) by done. cbn [snd].
      by rewrite !update_todo_missing. }
  split; [apply Hmerge|]. rewrite Hmerge. f_equal.
  by destruct earlier as [[?|] [?|] [?|]].
Qed.

(** ** The size of the collection *)

Lemma handle_length (req : Store.Request) (w : World) :
  Z.of_nat (length (todos_db (Store.handle req w).2))
  = Z.of_nat (length (todos_db w))
    + (if Store.is_post req then 1 else 0)
    - Runs.deleted [req] [(Store.handle req w).1].
Proof.
  destruct req as [| |id'|body now1 now2|id' body now|id']; cbn [Store.handle fst snd
    Store.is_post Runs.deleted]; try lia.
  - cbn. rewrite length_app. cbn. lia.
  - destruct (Store.scan id' 0 (todos_db w)) as [[j old]|] eqn:Hscan.
    + destruct (update_todo_found id' body now w j old Hscan) as (-> & _).
      cbn. rewrite length_insert. lia.
    + rewrite update_todo_missing by done. cbn. lia.
  - destruct (Store.scan id' 0 (todos_db w)) as [[j old]|] eqn:Hscan.
    + rewrite (delete_todo_found _ _ _ _ Hscan). cbn.
      apply scan_Some in Hscan as (Hj & _).
      rewrite length_delete by eauto. apply lookup_lt_Some in Hj. lia.
    + rewrite delete_todo_missing by done. cbn. lia.
Qed.

Lemma deleted_cons (req : Store.Request) (resp : Store.Response)
    (reqs : list Store.Request) (resps : list Store.Response) :
  Runs.deleted (req :: reqs) (resp :: resps)
  = Runs.deleted [req] [resp] + Runs.deleted reqs resps.
Proof. destruct req, resp; cbn [Runs.deleted]; lia. Qed.

(** X7. Over any run the collection grows by one item per create and
    shrinks by one per delete that was answered with the confirmation
    message; updates, reads and failed deletes leave its size alone.
    After start-up it therefore holds five items plus the creates minus
    the confirmed deletes. *)
Theorem collection_size (reqs : list Store.Request) (w : World) :
  Z.of_nat (length (todos_db (Store.run reqs w).2))
  = Z.of_nat (length (todos_db w)) + Store.posts reqs
    - Runs.deleted reqs (Store.run reqs w).1
  ∧ (∀ clock,
       Store.total_todos (Store.get_todo_stats (Store.run reqs (Store.startup clock)).2)
       = 5 + Store.posts reqs - Runs.deleted reqs (Store.run reqs (Store.startup clock)).1).
Proof.
  assert (∀ w, Z.of_nat (length (todos_db (Store.run reqs w).2))
               = Z.of_nat (length (todos_db w)) + Store.posts reqs
                 - Runs.deleted reqs (Store.run reqs w).1) as Hsize.
  { unfold Store.posts. induction reqs as [|req reqs IH]; intros w0.
    - cbn. lia.
    - rewrite run_cons. cbn [fst snd]. rewrite deleted_cons, IH, handle_length.
      rewrite filter_cons. destruct (Store.is_post req); case_decide; try done;
        cbn [length]; lia. }
  split; [apply Hsize|]. intros clock. cbn [Store.get_todo_stats Store.total_todos].
  rewrite Hsize. done.
Qed.

(** ** Timestamps under a clock that does not run backwards *)

Lemma sorted_lookup_le (l : list Z) (i j : nat) (x y : Z) :
  StronglySorted Z.le l → l !! i = Some x → l !! j = Some y → (i < j)%nat → x ≤ y.
Proof.
  intros Hsorted. revert i j. induction Hsorted as [|z l Hl IH Hall]; intros i j Hi Hj Hlt.
  - done.
  - destruct j as [|j]; [lia|]. cbn in Hj. destruct i as [|i].
    + cbn in Hi. injection Hi as ->. rewrite Forall_forall in Hall.
      apply Hall. by eapply list_elem_of_lookup_2.
    + cbn in Hi. apply (IH i j); [done|done|lia].
Qed.

Lemma timestamps_ordered_mono (past more : list Z) (w : World) :
  Runs.timestamps_ordered past w → Runs.timestamps_ordered (past ++ more) w.
Proof.
  unfold Runs.timestamps_ordered. intros H. eapply Forall_impl; [exact H|].
  cbn. intros t [Hle Hin]. split; [done|]. apply elem_of_app. by left.
Qed.

Lemma startup_timestamps (clock : nat → Z) :
  StronglySorted Z.le (clock <$> seq 0 10) →
  Runs.timestamps_ordered (clock <$> seq 0 10) (Store.startup clock).
Proof.
  intros Hsorted. unfold Runs.timestamps_ordered.
  assert (∀ i : nat, (i < 5)%nat → clock (2 * i)%nat ≤ clock (S (2 * i))) as Hpair.
  { intros i Hi.
    apply (sorted_lookup_le _ (2 * i) (S (2 * i)) _ _ Hsorted); [| |lia];
      rewrite list_lookup_fmap, lookup_seq_lt by lia; done. }
  cbn. repeat constructor; cbn;
    first [ apply (Hpair 0%nat); lia | apply (Hpair 1%nat); lia | apply (Hpair 2%nat); lia
          | apply (Hpair 3%nat); lia | apply (Hpair 4%nat); lia | set_solver ].
Qed.

Lemma handle_timestamps (req : Store.Request) (past : list Z) (w : World) :
  Runs.timestamps_ordered past w →
  StronglySorted Z.le (past ++ Store.readings req) →
  Runs.timestamps_ordered (past ++ Store.readings req) (Store.handle req w).2.
Proof.
  intros Hpast Hsorted.
  pose proof (timestamps_ordered_mono past (Store.readings req) w Hpast) as Hmono.
  rewrite handle_world.
  destruct req as [| |id'|body now1 now2|id' body now|id']; try done.
  - unfold Runs.timestamps_ordered in *. cbn. apply Forall_app. split; [done|].
    repeat constructor; cbn; [|set_solver].
    apply StronglySorted_app_1_r in Hsorted. cbn in Hsorted.
    apply StronglySorted_cons in Hsorted as [Hall _]. by inv Hall.
  - destruct (Store.scan id' 0 (todos_db w)) as [[j old]|] eqn:Hscan.
    + destruct (update_todo_found id' body now w j old Hscan) as (-> & _).
      apply scan_Some in Hscan as (Hj & _).
      unfold Runs.timestamps_ordered in *. cbn [snd todos_db].
      apply Forall_insert; [done|]. cbn [Store.touch Todo.created_at Todo.updated_at].
      rewrite (proj1 (proj2 (setattr_all_id _ _))).
      split; [|apply elem_of_app; right; by constructor].
      rewrite Forall_forall in Hpast.
      destruct (Hpast old) as [Hle Hin]; [by eapply list_elem_of_lookup_2|].
      etrans; [exact Hle|].
      eapply (StronglySorted_app_1_elem_of Z.le); [exact Hsorted|done|by constructor].
    + by rewrite update_todo_missing.
  - destruct (Store.scan id' 0 (todos_db w)) as [[j old]|] eqn:Hscan.
    + rewrite (delete_todo_found _ _ _ _ Hscan).
      unfold Runs.timestamps_ordered in *. cbn [snd todos_db]. by apply Forall_delete.
    + by rewrite delete_todo_missing.
Qed.

Lemma run_timestamps (reqs : list Store.Request) :
  ∀ (past : list Z) (w : World),
    Runs.timestamps_ordered past w →
    StronglySorted Z.le (past ++ concat (Store.readings <$> reqs)) →
    Runs.timestamps_ordered (past ++ concat (Store.readings <$> reqs)) (Store.run reqs w).2.
Proof.
  induction reqs as [|req reqs IH]; intros past w Hpast Hsorted.
  - cbn. by rewrite app_nil_r.
  - rewrite run_cons. cbn [snd fmap list_fmap concat] in *. rewrite app_assoc in *.
    apply IH; [|done]. apply handle_timestamps; [done|].
    by apply StronglySorted_app_1_l in Hsorted.
Qed.

(** X8. When the clock readings taken since process start never decrease,
    every item of every state reached has [created_at <= updated_at]. *)
Theorem created_before_updated
    (clock : nat → Z) (reqs : list Store.Request)
    (Hclock : Sorted Z.le (Store.clock_readings clock reqs)) :
  Forall (λ t, Todo.created_at t ≤ Todo.updated_at t)
         (todos_db (Store.run reqs (Store.startup clock)).2).
Proof.
  apply (Sorted_StronglySorted Z.le) in Hclock. unfold Store.clock_readings in Hclock.
  pose proof (run_timestamps reqs _ _
                (startup_timestamps clock (StronglySorted_app_1_l _ _ _ Hclock)) Hclock)
    as Hordered.
  eapply Forall_impl; [exact Hordered|]. cbn. by intros t [? _].
Qed.

(** With the clock counting 0, 1, 2, ... through start-up, a create and
    an update. *)
Lemma created_before_updated_counting :
  Forall (λ t, Todo.created_at t ≤ Todo.updated_at t)
         (todos_db
            (Store.run [ Store.PostTodo (TodoCreate.mk "X" None false) 10 11;
                         Store.PutTodo 2 (TodoUpdate.mk None None (Some (Some true))) 12 ]
                       (Store.startup (λ k, Z.of_nat k))).2).
Proof.
  apply created_before_updated. cbn. repeat first [lia | constructor].
Defined.

(** * Further properties of the adapters *)

(** ** The store's items as the adapters render them *)

(** What the adapters read from the document of an item. *)
Lemma todo_doc_fields (isoformat : Z → string) (todo : Todo.t) :
  ∃ d : gmap string JValue,
    Wire.todo_doc isoformat todo = JObj d
    ∧ d !! "id" = Some (JInt (Todo.id todo))
    ∧ d !! "title" = Some (from_option JStr JNull (Todo.title todo))
    ∧ d !! "description" = Some (from_option JStr JNull (Todo.description todo))
    ∧ d !! "completed" = Some (from_option JBool JNull (Todo.completed todo))
    ∧ d !! "created_at" = Some (JStr (isoformat (Todo.created_at todo)))
    ∧ d !! "updated_at" = Some (JStr (isoformat (Todo.updated_at todo))).
Proof.
  unfold Wire.todo_doc. eexists. split; [done|]. repeat split; by simplify_map_eq.
Qed.

Lemma str_from_option (repr : JValue → string) (o : option string) :
  str repr (from_option JStr JNull o) = str_opt o.
Proof. by destruct o. Qed.

Lemma truthy_completed (todo : Todo.t) :
  truthy (from_option JBool JNull (Todo.completed todo)) = Store.is_completed todo.
Proof. unfold Store.is_completed. by destruct (Todo.completed todo). Qed.

Lemma embedded_line (isoformat : Z → string) (repr : JValue → string) (todo : Todo.t) :
  TodoMCPServer.todo_line repr (Wire.todo_doc isoformat todo)
  = Ok (Sent.line TodoMCPServer.done_glyph TodoMCPServer.pending_glyph todo).
Proof.
  destruct (todo_doc_fields isoformat todo) as (d & -> & Hid & Ht & Hd & Hc & _).
  unfold TodoMCPServer.todo_line, Sent.line.
  cbn [getitem get_or]. unfold dict_getitem. rewrite Hid, Ht, Hd, Hc.
  cbn. by rewrite !str_from_option, truthy_completed.
Qed.

Lemma standalone_line (isoformat : Z → string) (repr : JValue → string) (todo : Todo.t) :
  McpServer.todo_line repr (Wire.todo_doc isoformat todo)
  = Ok (Sent.line McpServer.done_glyph McpServer.pending_glyph todo).
Proof.
  destruct (todo_doc_fields isoformat todo) as (d & -> & Hid & Ht & Hd & Hc & _).
  unfold McpServer.todo_line, Sent.line.
  cbn [getitem get_or]. unfold dict_getitem. rewrite Hid, Ht, Hd, Hc.
  cbn. by rewrite !str_from_option, truthy_completed.
Qed.

Lemma mapM_todo_json (isoformat : Z → string) (db : list Todo.t) :
  mapM (Wire.todo_json isoformat) db = Some (Wire.todo_doc isoformat <$> db).
Proof. induction db as [|todo db IH]; [done|]. cbn. by rewrite IH. Qed.

Lemma mapM_lines (f : JValue → Result Exception string) (g : Todo.t → string)
    (isoformat : Z → string) (db : list Todo.t) :
  (∀ todo, f (Wire.todo_doc isoformat todo) = Ok (g todo)) →
  mapM f (Wire.todo_doc isoformat <$> db) = Ok (g <$> db).
Proof.
  intros Hline. induction db as [|todo db IH]; [done|].
  cbn. rewrite Hline. cbn. by rewrite IH.
Qed.

(** X9. For every collection, [GET /todos] answers with the list of the
    items' documents, and on that answer [get_todos] returns the
    heading and one line per item, in the order of the collection: id,
    title, the glyph for the completion flag, and the description.  A
    field that holds [None] shows as [None] (also a title that an
    update has set to [null]), and a completion flag of [None] shows
    the pending glyph.  The embedded and the standalone adapter differ
    in the glyphs only. *)
Theorem get_todos_lists_every_item
    (isoformat : Z → string) (message : Z → string → string)
    (repr validation : JValue → string) (raw : string)
    (arguments : gmap string JValue) (w : World) :
  let doc := JList (Wire.todo_doc isoformat <$> todos_db w) in
  Wire.todos_json isoformat w = Some doc
  ∧ TodoMCPServer.handle_call_tool (answering (Response.mk 200 raw (Ok doc)))
      message repr validation "get_todos" arguments
    = TodoMCPServer.text_result
        ("All Todos:" +:+ nl
         +:+ join nl (Sent.line TodoMCPServer.done_glyph TodoMCPServer.pending_glyph
                      <$> todos_db w))
  ∧ McpServer.get_todos (answering (Response.mk 200 raw (Ok doc))) message repr
    = Ok ("All Todos:" +:+ nl
          +:+ join nl (Sent.line McpServer.done_glyph McpServer.pending_glyph
                       <$> todos_db w)).
Proof.
  cbv zeta. split; [|split].
  - unfold Wire.todos_json, Store.get_todos. by rewrite mapM_todo_json.
  - unfold TodoMCPServer.handle_call_tool, TodoMCPServer.dispatch,
      TodoMCPServer._get_todos, TodoMCPServer._make_request. cbn.
    by rewrite (mapM_lines _ _ _ _ (embedded_line isoformat repr)).
  - unfold McpServer.get_todos, McpServer.make_request, McpServer.request. cbn.
    by rewrite (mapM_lines _ _ _ _ (standalone_line isoformat repr)).
Qed.

(** The first two seeded items after [PUT /todos/1] with the body
    [{"title": null}]. *)
Lemma get_todos_lists_null_title :
  let w := mkWorld
             (take 2 (todos_db (Store.update_todo 1 (TodoUpdate.mk (Some None) None None) 9
                                  (Store.startup (λ _, 0))).2)) 6 in
  TodoMCPServer.handle_call_tool
    (answering (Response.mk 200 EmptyString
                  (Ok (JList (Wire.todo_doc str_int <$> todos_db w)))))
    (λ _ _, EmptyString) (λ _, EmptyString) (λ _, EmptyString) "get_todos" ∅
  = TodoMCPServer.text_result
      ("All Todos:" +:+ nl
       +:+ "ID: 1 | None | ⏳ | Complete FastAPI tutorial" +:+ nl
       +:+ "ID: 2 | Build MCP Server | ⏳ | Create MCP server for Gemini CLI").
Proof.
  cbv zeta.
  destruct (get_todos_lists_every_item str_int (λ _ _, EmptyString) (λ _, EmptyString)
              (λ _, EmptyString) EmptyString ∅
              (mkWorld
                 (take 2 (todos_db (Store.update_todo 1
                                      (TodoUpdate.mk (Some None) None None) 9
                                      (Store.startup (λ _, 0))).2)) 6))
    as (_ & Hembedded & _).
  rewrite Hembedded. vm_compute. reflexivity.
Defined.

(** X10. For every item, [GET /todos/{id}] answers with the item's
    document, and on that answer [get_todo_by_id] shows all six fields:
    id, title, description, the completion flag as glyph and word, and
    the two timestamps as the store wrote them.  A title or description
    that holds [None] shows as [None], a completion flag of [None] as
    pending. *)
Theorem get_todo_by_id_shows_item
    (isoformat : Z → string) (message : Z → string → string)
    (repr validation : JValue → string) (raw : string)
    (todo_id : Z) (todo : Todo.t) :
  let doc := Wire.todo_doc isoformat todo in
  Wire.todo_json isoformat todo = Some doc
  ∧ TodoMCPServer.handle_call_tool (answering (Response.mk 200 raw (Ok doc)))
      message repr validation "get_todo_by_id" {[ "id" := JInt todo_id ]}
    = TodoMCPServer.text_result
        (Sent.details isoformat TodoMCPServer.done_glyph TodoMCPServer.pending_glyph todo)
  ∧ McpServer.get_todo_by_id (answering (Response.mk 200 raw (Ok doc))) message repr todo_id
    = Ok (Sent.details isoformat McpServer.done_glyph McpServer.pending_glyph todo).
Proof.
  cbv zeta. split; [done|].
  destruct (todo_doc_fields isoformat todo)
    as (d & -> & Hid & Ht & Hd & Hc & Hcreated & Hupdated).
  split.
  - unfold TodoMCPServer.handle_call_tool, TodoMCPServer.dispatch,
      TodoMCPServer._get_todo_by_id, TodoMCPServer._make_request, Sent.details.
    cbn. unfold dict_getitem. rewrite Hid, Ht, Hd, Hc, Hcreated, Hupdated.
    cbn. by rewrite !str_from_option, truthy_completed.
  - unfold McpServer.get_todo_by_id, McpServer.make_request, McpServer.request,
      Sent.details.
    cbn. unfold dict_getitem. rewrite Hid, Ht, Hd, Hc, Hcreated, Hupdated.
    cbn. by rewrite !str_from_option, truthy_completed.
Qed.

(** An item whose title and completion flag an update has set to
    [null]. *)
Lemma get_todo_by_id_shows_null_title :
  McpServer.get_todo_by_id
    (answering
       (Response.mk 200 EmptyString
          (Ok (Wire.todo_doc str_int
                 (Todo.mk 4 None (Some "Deploy to production") None 6 7)))))
    (λ _ _, EmptyString) (λ _, EmptyString) 4
  = Ok ("Todo Details:" +:+ nl
        +:+ "ID: 4" +:+ nl
        +:+ "Title: None" +:+ nl
        +:+ "Description: Deploy to production" +:+ nl
        +:+ "Status: â³ Pending" +:+ nl
        +:+ "Created: 6" +:+ nl
        +:+ "Updated: 7").
Proof.
  destruct (get_todo_by_id_shows_item str_int (λ _ _, EmptyString) (λ _, EmptyString)
              (λ _, EmptyString) EmptyString 4
              (Todo.mk 4 None (Some "Deploy to production") None 6 7))
    as (_ & _ & Hstandalone).
  rewrite Hstandalone. vm_compute. reflexivity.
Defined.

(** ** Delete through the adapters *)

(** X11. When the store confirms a delete, both adapters hand on its message
    word for word, which names the title of the deleted item; an answer
    without the [message] key comes back from the embedded adapter as
    the text [Error: 'message']. *)
Theorem delete_todo_hands_on_message
    (message : Z → string → string) (repr validation : JValue → string) (raw : string)
    (todo_id : Z) (w : World) (old : Todo.t)
    (Hold : Store.get_todo todo_id w = Ok old) :
  ∃ confirmation : string,
    (Store.delete_todo todo_id w).1 = Ok confirmation
    ∧ confirmation = "Todo '" +:+ str_opt (Todo.title old) +:+ "' deleted successfully"
    ∧ TodoMCPServer.handle_call_tool
        (answering (Response.mk 200 raw (Ok (Sent.message confirmation))))
        message repr validation "delete_todo" {[ "id" := JInt todo_id ]}
      = TodoMCPServer.text_result confirmation
    ∧ McpServer.delete_todo
        (answering (Response.mk 200 raw (Ok (Sent.message confirmation)))) message todo_id
      = Ok (JStr confirmation)
    ∧ TodoMCPServer.handle_call_tool (answering (Response.mk 200 raw (Ok (JObj ∅))))
        message repr validation "delete_todo" {[ "id" := JInt todo_id ]}
      = TodoMCPServer.text_result "Error: 'message'".
Proof.
  apply get_todo_Ok in Hold as (j & Hscan).
  rewrite (delete_todo_found _ _ _ _ Hscan). eexists. split; [done|]. split; [done|].
  repeat split.
Qed.

(** The first seeded item. *)
Lemma delete_todo_hands_on_seeded :
  ∃ confirmation : string,
    (Store.delete_todo 1 (Store.startup (λ _, 0))).1 = Ok confirmation
    ∧ TodoMCPServer.handle_call_tool
        (answering (Response.mk 200 EmptyString (Ok (Sent.message confirmation))))
        (λ _ _, EmptyString) (λ _, EmptyString) (λ _, EmptyString)
        "delete_todo" {[ "id" := JInt 1 ]}
      = TodoMCPServer.text_result "Todo 'Learn FastAPI' deleted successfully".
Proof.
  destruct (delete_todo_hands_on_message (λ _ _, EmptyString) (λ _, EmptyString)
              (λ _, EmptyString) EmptyString 1 (Store.startup (λ _, 0))
              (Todo.mk 1 (Some "Learn FastAPI") (Some "Complete FastAPI tutorial")
                       (Some false) 0 0))
    as (confirmation & Hstore & -> & Hembedded & _); [vm_compute; reflexivity|].
  eexists. split; [exact Hstore|]. rewrite Hembedded. reflexivity.
Defined.

(** ** Statistics through the adapters *)

(** X12. Both adapters render the statistics of any collection as five
    lines: the heading, the three counts in decimal, and the
    percentage followed by a percent sign, which for an empty
    collection reads [0%]. *)
Theorem get_todo_stats_renders_counts
    (message : Z → string → string) (repr validation : JValue → string) (raw : string)
    (arguments : gmap string JValue) (w : World) :
  let s := Store.get_todo_stats w in
  let text :=
    "Todo Statistics:" +:+ nl
    +:+ "Total Todos: " +:+ str_int (Z.of_nat (length (todos_db w))) +:+ nl
    +:+ "Completed: " +:+ str_int (Store.completed_todos s) +:+ nl
    +:+ "Pending: " +:+ str_int (Z.of_nat (length (todos_db w)) - Store.completed_todos s)
    +:+ nl
    +:+ "Completion Rate: " +:+ str repr (Store.completion_percentage s) +:+ "%" in
  TodoMCPServer.handle_call_tool (answering (Response.mk 200 raw (Ok (Sent.stats s))))
    message repr validation "get_todo_stats" arguments
  = TodoMCPServer.text_result text
  ∧ McpServer.get_todo_stats (answering (Response.mk 200 raw (Ok (Sent.stats s))))
      message repr
    = Ok text
  ∧ (todos_db w = [] →
     text = "Todo Statistics:" +:+ nl +:+ "Total Todos: 0" +:+ nl +:+ "Completed: 0" +:+ nl
            +:+ "Pending: 0" +:+ nl +:+ "Completion Rate: 0%").
Proof.
  cbv zeta. split; [|split].
  - unfold TodoMCPServer.handle_call_tool, TodoMCPServer.dispatch,
      TodoMCPServer._get_todo_stats, TodoMCPServer._make_request, Sent.stats.
    cbn. unfold dict_getitem. by simplify_map_eq.
  - unfold McpServer.get_todo_stats, McpServer.make_request, McpServer.request, Sent.stats.
    cbn. unfold dict_getitem. by simplify_map_eq.
  - intros Hempty. unfold Store.get_todo_stats. rewrite Hempty. reflexivity.
Qed.

(** ** Create and update through the adapters *)

Lemma created_todo_json (isoformat : Z → string) (body : TodoCreate.t)
    (now1 now2 : Z) (w : World) :
  ∃ d, Wire.todo_json isoformat (Store.create_todo body now1 now2 w).1 = Some (JObj d)
       ∧ d !! "title" = Some (JStr (TodoCreate.title body))
       ∧ d !! "id" = Some (JInt (next_id w)).
Proof.
  unfold Wire.todo_json, Wire.todo_doc. cbn. eexists. split; [done|].
  split; by simplify_map_eq.
Qed.

(** X13. The standalone [create_todo] sends one [POST] whose body the store
    decodes to exactly the title, description and completion flag the
    tool was called with; on the store's answer for the created item it
    reports the title and the id, which is the store's counter value
    before the create. *)
Theorem standalone_create_round_trip
    (isoformat : Z → string) (message : Z → string → string) (repr : JValue → string)
    (raw : string) (title : string) (description : option string) (completed : bool)
    (now1 now2 : Z) (w : World) :
  let sent : gmap string JValue :=
    <["title" := JStr title]>
    (<["description" := from_option JStr JNull description]>
    (<["completed" := JBool completed]> ∅)) in
  let body := TodoCreate.mk title description completed in
  (∀ client1 client2,
     Client.post client1 "http://localhost:8001/todos" (Some sent)
     = Client.post client2 "http://localhost:8001/todos" (Some sent) →
     McpServer.create_todo client1 message repr title description completed
     = McpServer.create_todo client2 message repr title description completed)
  ∧ Wire.todo_create_of_json sent = Some body
  ∧ ∃ doc,
      Wire.todo_json isoformat (Store.create_todo body now1 now2 w).1 = Some doc
      ∧ McpServer.create_todo (answering (Response.mk 200 raw (Ok doc))) message repr
          title description completed
        = Ok ("Created todo: " +:+ title +:+ " (ID: " +:+ str_int (next_id w) +:+ ")").
Proof.
  cbv zeta. split; [|split].
  - intros client1 client2 Hpost.
    unfold McpServer.create_todo, McpServer.make_request, McpServer.request,
      McpServer.FASTAPI_URL.
    cbn [String.eqb Ascii.eqb Bool.eqb].
    change ("http://localhost:8001" +:+ "/todos") with "http://localhost:8001/todos".
    by rewrite Hpost.
  - unfold Wire.todo_create_of_json, Wire.optional_str.
    simplify_map_eq. by destruct description.
  - destruct (created_todo_json isoformat (TodoCreate.mk title description completed)
                now1 now2 w) as (d & Hdoc & Htitle & Hid).
    eexists. split; [exact Hdoc|].
    unfold McpServer.create_todo, McpServer.make_request, McpServer.request.
    cbn. unfold dict_getitem. cbn in Htitle, Hid. by rewrite Htitle, Hid.
Qed.

(** X14. The embedded [create_todo] needs [title]: without it the text is
    [Error: 'title'] and no request is made.  With only a title it
    posts a body that the store decodes to that title with no
    description and not completed, and on the store's answer for the
    created item it reports the title and the new id. *)
Theorem embedded_create_defaults
    (isoformat : Z → string) (message : Z → string → string)
    (repr validation : JValue → string) (raw : string) (title : string)
    (now1 now2 : Z) (w : World) :
  let call client := TodoMCPServer.handle_call_tool client message repr validation
                       "create_todo" in
  let sent : gmap string JValue :=
    <["title" := JStr title]>
    (<["description" := JNull]> (<["completed" := JBool false]> ∅)) in
  let body := TodoCreate.mk title None false in
  (∀ client arguments,
     arguments !! "title" = None → call client arguments = TodoMCPServer.text_result "Error: 'title'")
  ∧ (∀ client1 client2,
       Client.post client1 "http://localhost:8001/todos" (Some sent)
       = Client.post client2 "http://localhost:8001/todos" (Some sent) →
       call client1 {[ "title" := JStr title ]} = call client2 {[ "title" := JStr title ]})
  ∧ Wire.todo_create_of_json sent = Some body
  ∧ ∃ doc,
      Wire.todo_json isoformat (Store.create_todo body now1 now2 w).1 = Some doc
      ∧ call (answering (Response.mk 200 raw (Ok doc))) {[ "title" := JStr title ]}
        = TodoMCPServer.text_result
            ("Created todo: " +:+ title +:+ " (ID: " +:+ str_int (next_id w) +:+ ")").
Proof.
  cbv zeta. split; [|split; [|split]].
  - intros client arguments Hmissing.
    unfold TodoMCPServer.handle_call_tool, TodoMCPServer.dispatch,
      TodoMCPServer._create_todo, dict_getitem. cbn. by rewrite Hmissing.
  - intros client1 client2 Hpost.
    unfold TodoMCPServer.handle_call_tool, TodoMCPServer.dispatch,
      TodoMCPServer._create_todo, TodoMCPServer._make_request, dict_getitem.
    cbn [String.eqb Ascii.eqb Bool.eqb].
    rewrite lookup_singleton_eq, (lookup_singleton_ne "title" "description"),
      (lookup_singleton_ne "title" "completed") by done.
    cbn [mbind result_bind default].
    change ("http://localhost:8001" +:+ "/todos") with "http://localhost:8001/todos".
    by rewrite Hpost.
  - unfold Wire.todo_create_of_json, Wire.optional_str. by simplify_map_eq.
  - destruct (created_todo_json isoformat (TodoCreate.mk title None false) now1 now2 w)
      as (d & Hdoc & Htitle & Hid).
    eexists. split; [exact Hdoc|].
    unfold TodoMCPServer.handle_call_tool, TodoMCPServer.dispatch,
      TodoMCPServer._create_todo, TodoMCPServer._make_request, dict_getitem.
    cbn [String.eqb Ascii.eqb Bool.eqb]. rewrite lookup_singleton_eq.
    cbn. unfold dict_getitem. cbn in Htitle, Hid. by rewrite Htitle, Hid.
Qed.
(** The body that the standalone [update_todo] builds always decodes,
    to the update that sets exactly the arguments given. *)
Lemma standalone_update_decodes (title description : option string)
    (completed : option bool) :
  Wire.todo_update_of_json (McpServer.update_data title description completed)
  = Some (TodoUpdate.mk (Some <$> title) (Some <$> description) (Some <$> completed)).
Proof.
  destruct (standalone_update_data_lookup title description completed)
    as (Htitle & Hdescription & Hcompleted & _).
  unfold Wire.todo_update_of_json, Wire.optional_str, Wire.optional_bool.
  rewrite Htitle, Hdescription, Hcompleted.
  by destruct title, description, completed.
Qed.

(** What an update does to the three fields of the item it finds. *)
Lemma update_todo_fields (todo_id : Z) (u : TodoUpdate.t) (now : Z) (w : World)
    (old : Todo.t) :
  Store.get_todo todo_id w = Ok old →
  ∃ new : Todo.t,
    (Store.update_todo todo_id u now w).1 = Ok new
    ∧ Todo.id new = todo_id
    ∧ Todo.title new = default (Todo.title old) (TodoUpdate.title u)
    ∧ Todo.description new = default (Todo.description old) (TodoUpdate.description u)
    ∧ Todo.completed new = default (Todo.completed old) (TodoUpdate.completed u).
Proof.
  intros (j & Hscan)%get_todo_Ok.
  destruct (update_todo_found todo_id u now w j old Hscan) as (Hupd & Hid & _).
  destruct (setattr_all_fields old u) as (Ht & Hd & Hc).
  eexists. split; [by rewrite Hupd|]. split; [exact Hid|].
  cbn [Store.touch Todo.title Todo.description Todo.completed]. done.
Qed.

(** X15. An update through the standalone adapter can set fields but never
    clear one.  For every item the store holds, whatever its fields (a
    title or completion flag of [None] included): the store decodes the
    forwarded body to an update with the given arguments and no [None];
    each field of the stored item is the argument if one is given and as
    before otherwise; the store answers with the item's document; and
    on that answer the tool reports the title the item now has, with its
    id ([None] for a title that was [None] and is not given). *)
Theorem standalone_update_round_trip
    (isoformat : Z → string) (message : Z → string → string) (repr : JValue → string)
    (raw : string) (todo_id now : Z) (title description : option string)
    (completed : option bool) (w : World) (old : Todo.t)
    (Hold : Store.get_todo todo_id w = Ok old) :
  ∃ (u : TodoUpdate.t) (new : Todo.t),
    Wire.todo_update_of_json (McpServer.update_data title description completed) = Some u
    ∧ (Store.update_todo todo_id u now w).1 = Ok new
    ∧ Todo.title new = match title with Some t => Some t | None => Todo.title old end
    ∧ Todo.description new
      = match description with Some d => Some d | None => Todo.description old end
    ∧ Todo.completed new
      = match completed with Some c => Some c | None => Todo.completed old end
    ∧ Wire.todo_json isoformat new = Some (Wire.todo_doc isoformat new)
    ∧ McpServer.update_todo
        (answering (Response.mk 200 raw (Ok (Wire.todo_doc isoformat new)))) message repr
        todo_id title description completed
      = Ok ("Updated todo: " +:+ str_opt (Todo.title new)
            +:+ " (ID: " +:+ str_int todo_id +:+ ")").
Proof.
  set (u := TodoUpdate.mk (Some <$> title) (Some <$> description) (Some <$> completed)).
  destruct (update_todo_fields todo_id u now w old Hold)
    as (new & Hupd & Hid & Ht & Hd & Hc).
  exists u, new.
  split; [apply standalone_update_decodes|]. split; [exact Hupd|].
  split; [by rewrite Ht; destruct title|].
  split; [by rewrite Hd; destruct description|].
  split; [by rewrite Hc; destruct completed|].
  split; [done|].
  destruct (todo_doc_fields isoformat new) as (d & -> & Hdid & Hdtitle & _).
  rewrite Hid in Hdid.
  unfold McpServer.update_todo, McpServer.make_request, McpServer.request.
  cbn. unfold dict_getitem. rewrite Hdtitle, Hdid. cbn.
  by rewrite str_from_option.
Qed.

(** The first seeded item after its title has been set to [null], then
    updated through the adapter with a description only. *)
Lemma standalone_update_seeded :
  let w := (Store.update_todo 1 (TodoUpdate.mk (Some None) None None) 8
              (Store.startup (λ _, 0))).2 in
  ∃ (u : TodoUpdate.t) (new : Todo.t),
    (Store.update_todo 1 u 9 w).1 = Ok new
    ∧ Todo.title new = None
    ∧ Todo.description new = Some "Read the guide"
    ∧ Todo.completed new = Some false
    ∧ McpServer.update_todo
        (answering (Response.mk 200 EmptyString (Ok (Wire.todo_doc str_int new))))
        (λ _ _, EmptyString) (λ _, EmptyString) 1 None (Some "Read the guide") None
      = Ok "Updated todo: None (ID: 1)".
Proof.
  cbv zeta.
  destruct (standalone_update_round_trip str_int (λ _ _, EmptyString) (λ _, EmptyString)
              EmptyString 1 9 None (Some "Read the guide") None
              (Store.update_todo 1 (TodoUpdate.mk (Some None) None None) 8
                 (Store.startup (λ _, 0))).2
              (Todo.mk 1 None (Some "Complete FastAPI tutorial") (Some false) 0 8))
    as (u & new & _ & Hupdate & Ht & Hd & Hc & _ & Htext);
    [vm_compute; reflexivity|].
  exists u, new. split; [exact Hupdate|]. split; [exact Ht|]. split; [exact Hd|].
  split; [exact Hc|]. rewrite Htext, Ht. vm_compute. reflexivity.
Defined.

(** X16. Whatever arguments the embedded [update_todo] is called with, the
    body it forwards carries no [null] under any key, so neither field
    decoder of the store reads a cleared field from it.  Whenever the
    store decodes the body (it reads the completion flag leniently, so
    [{id: 1, completed: 1}] is decoded), the update sets no field to
    [None], and applied to an item it leaves no field [None] that held
    a value before. *)
Theorem embedded_update_never_clears (arguments : gmap string JValue) :
  (∀ key, TodoMCPServer.update_data arguments !! key ≠ Some JNull)
  ∧ (∀ key, Wire.optional_str (TodoMCPServer.update_data arguments) key ≠ Some (Some None))
  ∧ (∀ key, Wire.optional_bool (TodoMCPServer.update_data arguments) key ≠ Some (Some None))
  ∧ (∀ u : TodoUpdate.t,
       Wire.todo_update_of_json (TodoMCPServer.update_data arguments) = Some u →
       TodoUpdate.title u ≠ Some None
       ∧ TodoUpdate.description u ≠ Some None
       ∧ TodoUpdate.completed u ≠ Some None
       ∧ ∀ (todo_id now : Z) (w : World) (old : Todo.t),
           Store.get_todo todo_id w = Ok old →
           ∃ new : Todo.t,
             (Store.update_todo todo_id u now w).1 = Ok new
             ∧ (Todo.title old ≠ None → Todo.title new ≠ None)
             ∧ (Todo.description old ≠ None → Todo.description new ≠ None)
             ∧ (Todo.completed old ≠ None → Todo.completed new ≠ None))
  ∧ Wire.todo_update_of_json
      (TodoMCPServer.update_data {[ "id" := JInt 1; "completed" := JInt 1 ]})
    = Some (TodoUpdate.mk None None (Some (Some true))).
Proof.
  assert (∀ key, TodoMCPServer.update_data arguments !! key ≠ Some JNull) as Hnonull.
  { intros key (_ & _ & Hnull)%update_data_lookup. done. }
  assert (∀ key, Wire.optional_str (TodoMCPServer.update_data arguments) key
                 ≠ Some (Some None)) as Hstr.
  { intros key. unfold Wire.optional_str. pose proof (Hnonull key) as Hkey.
    by destruct (_ !! key) as [[]|]. }
  assert (∀ key, Wire.optional_bool (TodoMCPServer.update_data arguments) key
                 ≠ Some (Some None)) as Hbool.
  { intros key. unfold Wire.optional_bool. pose proof (Hnonull key) as Hkey.
    destruct (_ !! key) as [v|]; [|done].
    destruct v as [|b|z|f|s|l|m]; try done; cbn -[Wire.lax_bool];
      by destruct (Wire.lax_bool _). }
  split; [exact Hnonull|]. split; [exact Hstr|]. split; [exact Hbool|].
  split; [|by vm_compute].
  intros u (Ht & Hd & Hc)%todo_update_of_json_fields.
  assert (TodoUpdate.title u ≠ Some None) as Hut.
  { intros Hclear. rewrite Hclear in Ht. by apply Hstr in Ht. }
  assert (TodoUpdate.description u ≠ Some None) as Hud.
  { intros Hclear. rewrite Hclear in Hd. by apply Hstr in Hd. }
  assert (TodoUpdate.completed u ≠ Some None) as Huc.
  { intros Hclear. rewrite Hclear in Hc. by apply Hbool in Hc. }
  split; [exact Hut|]. split; [exact Hud|]. split; [exact Huc|].
  intros todo_id now w old Hold.
  destruct (update_todo_fields todo_id u now w old Hold)
    as (new & Hupd & _ & Hnt & Hnd & Hnc).
  exists new. split; [exact Hupd|].
  rewrite Hnt, Hnd, Hnc.
  destruct u as [[[t|]|] [[d|]|] [[c|]|]]; cbn in *; done.
Qed.

(** The arguments [{id: 2, title: null, completed: 1}] on the second
    seeded item. *)
Lemma embedded_update_never_clears_example :
  let body := TodoMCPServer.update_data
                {[ "id" := JInt 2; "title" := JNull; "completed" := JInt 1 ]} in
  body !! "title" = None
  ∧ Wire.todo_update_of_json body = Some (TodoUpdate.mk None None (Some (Some true)))
  ∧ ∃ new : Todo.t,
      (Store.update_todo 2 (TodoUpdate.mk None None (Some (Some true))) 9
         (Store.startup (λ _, 0))).1 = Ok new
      ∧ Todo.title new ≠ None ∧ Todo.completed new ≠ None.
Proof.
  cbv zeta.
  assert (Wire.todo_update_of_json
            (TodoMCPServer.update_data
               {[ "id" := JInt 2; "title" := JNull; "completed" := JInt 1 ]})
          = Some (TodoUpdate.mk None None (Some (Some true)))) as Hdecoded
    by (vm_compute; reflexivity).
  split; [vm_compute; reflexivity|]. split; [exact Hdecoded|].
  destruct (embedded_update_never_clears
              {[ "id" := JInt 2; "title" := JNull; "completed" := JInt 1 ]})
    as (_ & _ & _ & Hstore & _).
  destruct (Hstore _ Hdecoded) as (_ & _ & _ & Happlied).
  destruct (Happlied 2 9 (Store.startup (λ _, 0))
              (Todo.mk 2 (Some "Build MCP Server")
                       (Some "Create MCP server for Gemini CLI") (Some false) 0 0))
    as (new & Hupd & Ht & _ & Hc); [vm_compute; reflexivity|].
  exists new. split; [exact Hupd|]. split; [by apply Ht|by apply Hc].
Defined.

(** ** The declared tools and the arguments they need *)

Ltac unfold_tools :=
  unfold TodoMCPServer.handle_call_tool, TodoMCPServer.dispatch,
    TodoMCPServer._get_todos, TodoMCPServer._get_todo_stats,
    TodoMCPServer._create_todo, TodoMCPServer._update_todo,
    TodoMCPServer._delete_todo, TodoMCPServer._get_todo_by_id,
    TodoMCPServer._make_request, dict_getitem.

(** X17. The six tools that [handle_list_tools] declares are the six names
    that [handle_call_tool] serves, and the keys a schema marks as
    required are the ones its tool cannot do without: when one of them
    is missing the call ends in [Error: '<key>'] before any request is
    made, and when all of them are there the tool does make its
    request (seen here on a store that is down, whose connection
    failure is reported whatever the tool). *)
Theorem required_arguments_are_needed
    (message : Z → string → string) (repr validation : JValue → string)
    (tool : ListTools.Tool) (arguments : gmap string JValue)
    (Htool : tool ∈ ListTools.handle_list_tools) :
  ListTools.name <$> ListTools.handle_list_tools = TodoMCPServer.tool_names
  ∧ (∀ key client,
       key ∈ ListTools.required (ListTools.inputSchema tool) →
       arguments !! key = None →
       TodoMCPServer.handle_call_tool client message repr validation
         (ListTools.name tool) arguments
       = TodoMCPServer.text_result ("Error: '" +:+ key +:+ "'"))
  ∧ ((∀ key, key ∈ ListTools.required (ListTools.inputSchema tool) →
             is_Some (arguments !! key)) →
     ∀ msg,
       TodoMCPServer.handle_call_tool (unreachable msg) message repr validation
         (ListTools.name tool) arguments
       = TodoMCPServer.text_result ("Error: " +:+ msg)).
Proof.
  split; [done|].
  unfold ListTools.handle_list_tools in Htool.
  repeat (apply elem_of_cons in Htool as [->|Htool]);
    [..|by apply elem_of_nil in Htool];
    cbn [ListTools.name ListTools.inputSchema ListTools.required]; split.
  all: try (intros key client Hkey; by apply elem_of_nil in Hkey).
  all: try (intros key client ->%list_elem_of_singleton Hmissing;
            unfold_tools; cbn; by rewrite Hmissing).
  all: try (intros _ msg; reflexivity).
  all: intros Hpresent msg;
    destruct (Hpresent _ (proj2 (list_elem_of_singleton _ _) eq_refl)) as [v Hv];
    unfold_tools; cbn; by rewrite Hv.
Qed.

(** The tool [delete_todo], called without and with its [id]. *)
Lemma required_arguments_delete_todo :
  TodoMCPServer.handle_call_tool (unreachable "down")
    (λ _ _, EmptyString) (λ _, EmptyString) (λ _, EmptyString) "delete_todo" ∅
  = TodoMCPServer.text_result "Error: 'id'"
  ∧ TodoMCPServer.handle_call_tool (unreachable "down")
      (λ _ _, EmptyString) (λ _, EmptyString) (λ _, EmptyString)
      "delete_todo" {[ "id" := JInt 3 ]}
    = TodoMCPServer.text_result "Error: down".
Proof.
  assert (ListTools.mkTool "delete_todo" "Delete a todo by ID"
            (ListTools.mkInputSchema "object"
               [ ("id", ListTools.mkProperty "integer" "ID of the todo to delete") ]
               ["id"])
          ∈ ListTools.handle_list_tools) as Htool
    by (unfold ListTools.handle_list_tools; repeat constructor).
  split.
  - destruct (required_arguments_are_needed (λ _ _, EmptyString) (λ _, EmptyString)
                (λ _, EmptyString) _ ∅ Htool) as (_ & Hmissing & _).
    apply (Hmissing "id"); [by constructor|reflexivity].
  - destruct (required_arguments_are_needed (λ _ _, EmptyString) (λ _, EmptyString)
                (λ _, EmptyString) _ {[ "id" := JInt 3 ]} Htool) as (_ & _ & Hpresent).
    apply Hpresent.
    intros key ->%list_elem_of_singleton. exists (JInt 3). vm_compute. reflexivity.
Defined.
